(** * pyvac: the LDAP helper and the view base layer

    A shallow embedding of [pyvac/helpers/ldap.py] and [pyvac/views/base.py].
    Python 2 [str] values are byte strings and are modelled by [string]
    (a list of 8-bit [ascii]); dicts are [gmap]s; the webob [MultiDict] of
    request parameters is an association list because order and duplicate
    keys matter; Python exceptions are results of type [Res]; calls that
    reach an external collaborator (the directory server, the relational
    session, hooks of view subclasses) go through explicit state. *)

From Stdlib Require Import ZArith NArith Lia Ascii String List Bool.
From stdpp Require Import base gmap strings list fin_maps.

(** ** The Python runtime the two modules rely on *)

Module Py.

(** Exceptions.  [NonException] stands for the [BaseException] subclasses
    that are not [Exception] ([KeyboardInterrupt], [SystemExit]): an
    [except Exception] clause does not catch them. *)
Inductive exn : Type :=
  | UnknownLdapUser
  | ModelError (errors : list string)
  | IndexError
  | KeyError (key : string)
  | TypeError
  | ValueError
  | AttributeError
  | UnboundLocalError
  | LookupFailure (ident : Z)   (* raised by the model layer, see [by_id] *)
  | LDAPError (what : string)
  | OtherException (name : string)
  | NonException (name : string).

Definition is_Exception (e : exn) : bool :=
  match e with NonException _ => false | _ => true end.

Definition is_ModelError (e : exn) : option (list string) :=
  match e with ModelError errs => Some errs | _ => None end.

(** The outcome of evaluating an expression or running a statement. *)
Inductive Res (A : Type) : Type :=
  | Ok (a : A)
  | Raise (e : exn).
Arguments Ok {A} a.
Arguments Raise {A} e.

#[global] Instance Res_ret : MRet Res := fun A a => Ok a.
#[global] Instance Res_bind : MBind Res := fun A B f m =>
  match m with Ok a => f a | Raise e => Raise e end.

(** Computations over a mutable world of type [W]: the final world is
    returned also when an exception is raised, since effects that happened
    before the exception stay. *)
Definition M (W A : Type) : Type := W -> Res A * W.

Definition ret {W A} (a : A) : M W A := fun w => (Ok a, w).
Definition raise {W A} (e : exn) : M W A := fun w => (Raise e, w).
Definition bind {W A B} (m : M W A) (k : A -> M W B) : M W B := fun w =>
  match m w with
  | (Ok a, w') => k a w'
  | (Raise e, w') => (Raise e, w')
  end.
Definition lift {W A} (r : Res A) : M W A := fun w => (r, w).

#[global] Instance M_ret {W} : MRet (M W) := fun A a => ret a.
#[global] Instance M_bind {W} : MBind (M W) := fun A B k m => bind m k.

(** [fmt % args] restricted to the conversions the sources use: [%s] takes
    the next argument, [%%] is a literal percent sign.  Too few arguments
    and arguments left over are a [TypeError], as in Python; a [%] that ends
    the template or is followed by any other character is reported as
    [ValueError] (the sources never do that). *)
Fixpoint format (fmt : string) (args : list string) : Res string :=
  match fmt with
  | EmptyString =>
      match args with [] => Ok EmptyString | _ :: _ => Raise TypeError end
  | String c rest =>
      if Ascii.eqb c "%" then
        match rest with
        | EmptyString => Raise ValueError
        | String d rest' =>
            if Ascii.eqb d "s" then
              match args with
              | [] => Raise TypeError
              | a :: args' => r ← format rest' args'; Ok (a +:+ r)
              end
            else if Ascii.eqb d "%" then
              r ← format rest' args; Ok (String "%" r)
            else Raise ValueError
        end
      else r ← format rest args; Ok (String c r)
  end.

(** A [for] loop whose body may [return]: the body tells whether the
    function returns a value or the loop goes on; a loop that ends lets the
    function fall off its end, which returns [None]. *)
Inductive flow (A : Type) : Type :=
  | Return (a : A)
  | Continue.
Arguments Return {A} a.
Arguments Continue {A}.

Fixpoint for_each {W A B} (l : list A) (body : A -> M W (flow (option B)))
  : M W (option B) :=
  match l with
  | [] => ret None
  | x :: rest =>
      bind (body x) (fun f =>
        match f with
        | Return v => ret v
        | Continue => for_each rest body
        end)
  end.

(** [str(x)] for a value that is a string or [None]. *)
Definition str_of (v : option string) : string :=
  match v with Some s => s | None => "None" end.

(** [l.pop()]: the last element and the list without it. *)
Definition pop {A} (l : list A) : Res (A * list A) :=
  match last l with
  | Some x => Ok (x, removelast l)
  | None => Raise IndexError
  end.

(** [l[0]]. *)
Definition item0 {A} (l : list A) : Res A :=
  match l with x :: _ => Ok x | [] => Raise IndexError end.

(** [d[k]] on a dict. *)
Definition getitem {V} (d : gmap string V) (k : string) : Res V :=
  match d !! k with Some v => Ok v | None => Raise (KeyError k) end.

(** [s.split(sep)] for a one-character separator: never an empty list. *)
Fixpoint split (sep : ascii) (s : string) : list string :=
  match s with
  | EmptyString => [EmptyString]
  | String c rest =>
      if Ascii.eqb c sep then EmptyString :: split sep rest
      else match split sep rest with
           | [] => [String c EmptyString]
           | piece :: pieces => String c piece :: pieces
           end
  end.

(** [int(s)] on a string: surrounding white space, an optional sign, then
    decimal digits only. *)
Definition is_space (c : ascii) : bool :=
  let n := N_of_ascii c in (n =? 32)%N || ((9 <=? n)%N && (n <=? 13)%N).

Fixpoint lstrip (s : string) : string :=
  match s with
  | String c rest => if is_space c then lstrip rest else s
  | EmptyString => EmptyString
  end.

Fixpoint rstrip (s : string) : string :=
  match s with
  | EmptyString => EmptyString
  | String c rest =>
      match rstrip rest with
      | EmptyString => if is_space c then EmptyString else String c EmptyString
      | rest' => String c rest'
      end
  end.

Fixpoint digits (s : string) (acc : Z) : option Z :=
  match s with
  | EmptyString => Some acc
  | String c rest =>
      let n := N_of_ascii c in
      if ((48 <=? n)%N && (n <=? 57)%N)
      then digits rest (10 * acc + Z.of_N (n - 48))%Z
      else None
  end.

Definition int (s : string) : Res Z :=
  let body (t : string) : Res Z :=
    match t with
    | EmptyString => Raise ValueError
    | _ => match digits t 0%Z with Some z => Ok z | None => Raise ValueError end
    end in
  match rstrip (lstrip s) with
  | String "-" t => z ← body t; Ok (- z)%Z
  | String "+" t => body t
  | t => body t
  end.

End Py.
Import Py.

(** ** base64.urlsafe_b64encode *)

Module Base64.

(** The URL-safe alphabet: the standard one with [-] and [_] in the place
    of [+] and [/]. *)
Definition alphabet : string :=
  "ABCDEFGHIJKLMNOPQRSTUVWXYZabcdefghijklmnopqrstuvwxyz0123456789-_".

Definition pad : ascii := "="%char.

Definition enc_char (n : N) : ascii :=
  match String.get (N.to_nat n) alphabet with
  | Some c => c
  | None => pad
  end.

Fixpoint index_from (c : ascii) (s : string) (i : N) : option N :=
  match s with
  | EmptyString => None
  | String d s' => if Ascii.eqb c d then Some i else index_from c s' (N.succ i)
  end.

Definition dec_char (c : ascii) : option N := index_from c alphabet 0.

(** The four 6-bit groups of the 24 bits of three bytes. *)
Definition sextets (x y z : N) : N * N * N * N :=
  (x / 4, (x mod 4) * 16 + y / 16, (y mod 16) * 4 + z / 64, z mod 64)%N.

(** Three bytes become four characters; a final group of one or two bytes
    is padded with [=], which [urlsafe_b64encode] keeps. *)
Fixpoint urlsafe_b64encode (s : string) : string :=
  match s with
  | EmptyString => EmptyString
  | String a EmptyString =>
      let '(p, q, _, _) := sextets (N_of_ascii a) 0 0 in
      String (enc_char p) (String (enc_char q) (String pad (String pad EmptyString)))
  | String a (String b EmptyString) =>
      let '(p, q, r, _) := sextets (N_of_ascii a) (N_of_ascii b) 0 in
      String (enc_char p) (String (enc_char q)
        (String (enc_char r) (String pad EmptyString)))
  | String a (String b (String c rest)) =>
      let '(p, q, r, t) := sextets (N_of_ascii a) (N_of_ascii b) (N_of_ascii c) in
      String (enc_char p) (String (enc_char q)
        (String (enc_char r) (String (enc_char t) (urlsafe_b64encode rest))))
  end.

(** The three bytes of four 6-bit groups. *)
Definition octets (p q r t : N) : N * N * N :=
  (p * 4 + q / 16, (q mod 16) * 16 + r / 4, (r mod 4) * 64 + t)%N.

(** The reader a verifier of a stored credential uses: groups of four
    characters of the alphabet, padding only in the last group. *)
Fixpoint urlsafe_b64decode (s : string) : option string :=
  match s with
  | EmptyString => Some EmptyString
  | String a (String b (String c (String d rest))) =>
      p ← dec_char a; q ← dec_char b;
      if Ascii.eqb d pad then
        match rest with
        | EmptyString =>
            if Ascii.eqb c pad then
              let '(x, _, _) := octets p q 0 0 in
              Some (String (ascii_of_N x) EmptyString)
            else
              r ← dec_char c;
              let '(x, y, _) := octets p q r 0 in
              Some (String (ascii_of_N x) (String (ascii_of_N y) EmptyString))
        | String _ _ => None
        end
      else
        r ← dec_char c; t ← dec_char d;
        tail ← urlsafe_b64decode rest;
        let '(x, y, z) := octets p q r t in
        Some (String (ascii_of_N x) (String (ascii_of_N y) (String (ascii_of_N z) tail)))
  | _ => None
  end.

End Base64.

(** ** hashlib.sha1 *)

Module Sha1.
Local Open Scope N_scope.

Definition w32 (x : N) : N := N.land x 4294967295.
Definition add32 (x y : N) : N := w32 (x + y).
Definition not32 (x : N) : N := N.lxor x 4294967295.
Definition rotl (n x : N) : N :=
  w32 (N.lor (N.shiftl x n) (N.shiftr x (32 - n))).

(** Big-endian bytes of a number, most significant first. *)
Fixpoint be_bytes (n : nat) (x : N) : list N :=
  match n with
  | O => []
  | S n' => N.land (N.shiftr x (8 * N.of_nat n')) 255 :: be_bytes n' x
  end.

Definition bytes_of (s : string) : list N :=
  List.map N_of_ascii (list_ascii_of_string s).
Definition string_of (l : list N) : string :=
  string_of_list_ascii (List.map ascii_of_N l).

(** The message followed by the bit [1], zeros up to 56 modulo 64 bytes and
    the bit length on 64 bits. *)
Definition padded (msg : list N) : list N :=
  let len := N.of_nat (List.length msg) in
  let zeros := N.to_nat ((119 - len mod 64) mod 64) in
  msg ++ 128 :: List.repeat 0%N zeros ++ be_bytes 8%nat (8 * len).

Fixpoint words (fuel : nat) (l : list N) : list N :=
  match fuel, l with
  | S fuel', a :: b :: c :: d :: rest =>
      N.lor (N.shiftl a 24) (N.lor (N.shiftl b 16) (N.lor (N.shiftl c 8) d))
      :: words fuel' rest
  | _, _ => []
  end.

Definition word_at (w : list N) (i : nat) : N := List.nth i w 0.

(** The message schedule: sixteen words of the block, then sixty-four more. *)
Fixpoint extend (n : nat) (w : list N) : list N :=
  match n with
  | O => w
  | S n' =>
      let t := List.length w in
      let x := N.lxor (N.lxor (word_at w (t - 3)%nat) (word_at w (t - 8)%nat))
                      (N.lxor (word_at w (t - 14)%nat) (word_at w (t - 16)%nat)) in
      extend n' (w ++ [rotl 1 x])
  end.

Definition state := (N * N * N * N * N)%type.

Definition round_fk (t : nat) (b c d : N) : N * N :=
  if Nat.ltb t 20%nat then (N.lor (N.land b c) (N.land (not32 b) d), 1518500249)
  else if Nat.ltb t 40%nat then (N.lxor (N.lxor b c) d, 1859775393)
  else if Nat.ltb t 60%nat then
    (N.lor (N.lor (N.land b c) (N.land b d)) (N.land c d), 2400959708)
  else (N.lxor (N.lxor b c) d, 3395469782).

Fixpoint rounds (t : nat) (w : list N) (st : state) : state :=
  match w with
  | [] => st
  | wt :: w' =>
      let '(a, b, c, d, e) := st in
      let '(f, k) := round_fk t b c d in
      let temp := add32 (add32 (add32 (add32 (rotl 5 a) f) e) k) wt in
      rounds (S t) w' (temp, a, rotl 30 b, c, d)
  end.

Definition compress (st : state) (block : list N) : state :=
  let '(a, b, c, d, e) := st in
  let '(a', b', c', d', e') := rounds 0%nat (extend 64%nat block) st in
  (add32 a a', add32 b b', add32 c c', add32 d d', add32 e e').

Fixpoint blocks (fuel : nat) (w : list N) (st : state) : state :=
  match fuel with
  | O => st
  | S fuel' =>
      match w with
      | [] => st
      | _ => blocks fuel' (List.skipn 16%nat w) (compress st (List.firstn 16%nat w))
      end
  end.

Definition init : state :=
  (1732584193, 4023233417, 2562383102, 271733878, 3285377520)%N.

Definition sha1_bytes (msg : list N) : list N :=
  let p := padded msg in
  let w := words (List.length p) p in
  let '(a, b, c, d, e) := blocks (List.length w) w init in
  be_bytes 4%nat a ++ be_bytes 4%nat b ++ be_bytes 4%nat c ++ be_bytes 4%nat d ++ be_bytes 4%nat e.

(** The hash object of [hashlib]: what matters of it is the data fed so
    far; [digest] hashes their concatenation. *)
Record hash := { fed : string }.
Definition sha1 (data : string) : hash := {| fed := data |}.
Definition update (h : hash) (data : string) : hash :=
  {| fed := fed h +:+ data |}.
Definition digest (h : hash) : string :=
  string_of (sha1_bytes (bytes_of (fed h))).

Fixpoint hex (s : string) : string :=
  match s with
  | EmptyString => EmptyString
  | String c s' =>
      let n := N_of_ascii c in
      let d := fun k => match String.get (N.to_nat k) "0123456789abcdef" with
                        | Some x => x | None => "?"%char end in
      String (d (N.shiftr n 4)) (String (d (N.land n 15)) (hex s'))
  end.

End Sha1.

(** ** pyvac/helpers/ldap.py *)

Module Ldap.

(** *** The python-ldap interface *)

Inductive scope := SCOPE_BASE | SCOPE_ONELEVEL | SCOPE_SUBTREE.

(** A directory entry as python-ldap returns it: attribute name to the list
    of its values. *)
Abbreviation entry := (gmap string (list string)).

(** An attribute-value assertion [(attr, value, flags)], a relative DN and
    a parsed DN, as [ldap.dn.str2dn] returns them. *)
Abbreviation ava := (string * string * Z)%type.
Abbreviation rdn := (list ava).
Abbreviation parsed_dn := (list rdn).

(** What the sources pass to [str2dn]: a string, or (in
    [get_hr_by_country]) the value list of an attribute. *)
Inductive dn_arg := DnStr (s : string) | DnList (l : list string).

(** A modify-list: the result of [ldap.modlist.modifyModlist]. *)
Inductive mod_op := MOD_ADD | MOD_DELETE | MOD_REPLACE.
Abbreviation modlist := (list (mod_op * string * option (list string))).

(** The requests a connection sends to the directory server. *)
Inductive request :=
  | Search (base : string) (sc : scope) (filterstr : string)
           (attrlist : option (list string))
  | Bind (who cred : string)
  | Modify (who : string) (ldif : modlist).

(** The state of a connection is the sequence of requests sent so far; the
    server answers a request as a function of that history, so it may be as
    stateful as it likes. *)
Abbreviation history := (list request).

Record connection := {
  answer_search : history -> string -> scope -> string ->
                  option (list string) -> Res (list (string * entry));
  answer_bind : history -> string -> string -> Res unit;
  answer_modify : history -> string -> modlist -> Res unit;
}.

Definition search_s (c : connection) (base : string) (sc : scope)
    (filterstr : string) (attrlist : option (list string))
  : M history (list (string * entry)) := fun h =>
  (answer_search c h base sc filterstr attrlist,
   h ++ [Search base sc filterstr attrlist]).

Definition simple_bind_s (c : connection) (who cred : string)
  : M history unit := fun h =>
  (answer_bind c h who cred, h ++ [Bind who cred]).

Definition modify_s (c : connection) (who : string) (ldif : modlist)
  : M history unit := fun h =>
  (answer_modify c h who ldif, h ++ [Modify who ldif]).

(** *** class LdapWrapper *)

(** The instance attributes [__init__] sets from the configuration file. *)
Record LdapWrapper := {
  _conn : connection;
  _base : string;
  _filter : string;
  mail_attr : string;
  firstname_attr : string;
  lastname_attr : string;
  login_attr : string;
  manager_attr : string;
  country_attr : string;
  admin_dn : string;
}.

(** The dict [parse_ldap_entry] returns.  Its keys are fixed, so it is a
    record; [country] is [None] when the DN has no country component. *)
Record profile := {
  email : string;
  firstname : string;
  lastname : string;
  login : string;
  manager : string;
  dn : string;
  country : option string;
}.

Section Wrapper.

(** [ldap.dn.str2dn] and [ldap.modlist.modifyModlist] belong to python-ldap. *)
Variable str2dn : dn_arg -> Res parsed_dn.
Variable modifyModlist : entry -> entry -> modlist.

Variable self : LdapWrapper.

Definition _bind (who password : string) : M history unit :=
  simple_bind_s (_conn self) who password.

Definition _search (what : string) (retrieve : option (list string))
  : M history (list (string * entry)) :=
  search_s (_conn self) (_base self) SCOPE_SUBTREE what retrieve.

Definition _search_admin (what : string) (retrieve : option (list string))
  : M history (list (string * entry)) :=
  search_s (_conn self) (admin_dn self) SCOPE_SUBTREE what retrieve.

(** The loop of [_extract_country] and [_extract_cn]: return the value of
    the first RDN whose leading assertion has attribute [key]; fall off the
    end (returning [None]) when there is none. *)
Fixpoint first_rdn_value (key : string) (rdns : parsed_dn) : Res (option string) :=
  match rdns with
  | [] => Ok None
  | r :: rest =>
      a ← item0 r;
      if String.eqb a.1.1 key then Ok (Some a.1.2)
      else first_rdn_value key rest
  end.

Definition _extract_country (user_dn : dn_arg) : Res (option string) :=
  rdns ← str2dn user_dn; first_rdn_value (country_attr self) rdns.

Definition _extract_cn (user_dn : dn_arg) : Res (option string) :=
  rdns ← str2dn user_dn; first_rdn_value (login_attr self) rdns.

(** [entry[attr].pop()]: the value is removed from the list held by the
    entry, so a later pop of the same attribute sees the shorter list. *)
Definition pop_attr (e : entry) (attr : string) : Res (string * entry) :=
  vs ← getitem e attr;
  '(v, vs') ← pop vs;
  Ok (v, <[attr := vs']> e).

(** The loop that replaces [data['manager']]: every RDN whose leading
    assertion has the login attribute overwrites it, so the last one wins. *)
Fixpoint manager_loop (key : string) (rdns : parsed_dn) (cur : string) : Res string :=
  match rdns with
  | [] => Ok cur
  | r :: rest =>
      a ← item0 r;
      manager_loop key rest (if String.eqb a.1.1 key then a.1.2 else cur)
  end.

Definition parse_ldap_entry (user_dn : string) (e : entry)
  : Res (option profile) :=
  if bool_decide (user_dn = "") || bool_decide (e = ∅) then Ok None
  else
    '(v_email, e) ← pop_attr e (mail_attr self);
    '(v_first, e) ← pop_attr e (firstname_attr self);
    '(v_last, e) ← pop_attr e (lastname_attr self);
    '(v_login, e) ← pop_attr e (login_attr self);
    '(v_manager, e) ← pop_attr e (manager_attr self);
    v_country ← _extract_country (DnStr user_dn);
    rdns ← str2dn (DnStr v_manager);
    v_manager ← manager_loop (login_attr self) rdns v_manager;
    Ok (Some {| email := v_email; firstname := v_first; lastname := v_last;
                login := v_login; manager := v_manager; dn := user_dn;
                country := v_country |}).

Definition required_fields : list string :=
  ["cn"; "mail"; "uid"; "givenName"; "sn"; "manager"].

Definition _search_by_item (item : string) : M history (option profile) :=
  what ← lift (format (_filter self) [item]);
  res ← _search what (Some required_fields);
  match res with
  | [] => raise UnknownLdapUser
  | (USER_DN, e) :: _ => lift (parse_ldap_entry USER_DN e)
  end.

Definition search_user_by_login (login : option string)
  : M history (option profile) :=
  item ← lift (format "cn=*%s*" [str_of login]);
  _search_by_item item.

Definition search_user_by_dn (user_dn : string) : M history (option profile) :=
  _search_by_item user_dn.

(** [user_data['dn']] fails with [TypeError] when the search gave [None]. *)
Definition authenticate (login password : string) : M history (option profile) :=
  user_data ← search_user_by_login (Some login);
  match user_data with
  | None => raise TypeError
  | Some p => _ ← _bind (dn p) password; mret (Some p)
  end.

(** The loop of [update_user] over the keys of [fields]. *)
Fixpoint collect_old (e : entry) (fields : list (string * list string))
    (old : entry) : Res entry :=
  match fields with
  | [] => Ok old
  | (field, _) :: rest =>
      v ← getitem e field; collect_old e rest (<[field := v]> old)
  end.

Definition update_user (login country : string) (fields : entry)
  : M history unit :=
  dn ← lift (format "cn=%s,c=%s,%s" [login; country; _base self]);
  what ← lift (format (_filter self) [dn]);
  res ← _search what
    (Some ["objectClass"; "employeeType"; "cn"; "givenName"; "sn";
           "manager"; "mail"; "ou"; "uid"]);
  '(USER_DN, e) ← lift (item0 res);
  old ← lift (collect_old e (map_to_list fields) ∅);
  modify_s (_conn self) dn (modifyModlist old fields).

Definition get_hr_by_country (country : string) : M history (option profile) :=
  results ← _search_admin "(member=*)" None;
  for_each results (fun '(USER_DN, e) =>
    member ← lift (getitem e "member");
    login ← lift (_extract_cn (DnList member));
    user_data ← search_user_by_login login;
    mret (Return user_data)).

End Wrapper.

(** *** A reference directory

    [str2dn] for DN strings without escaped characters: RDNs are separated
    by commas, the assertions of an RDN by [+], attribute and value by the
    first [=].  The wrapper of python-ldap returns the empty list for a
    falsy argument; the C function behind it takes a string only. *)
Fixpoint cut (sep : ascii) (s : string) : option (string * string) :=
  match s with
  | EmptyString => None
  | String c rest =>
      if Ascii.eqb c sep then Some (EmptyString, rest)
      else '(a, b) ← cut sep rest; Some (String c a, b)
  end.

Definition parse_ava (s : string) : Res ava :=
  match cut "=" s with
  | Some (a, v) => Ok (a, v, 1%Z)
  | None => Raise (LDAPError "DECODING_ERROR")
  end.

Fixpoint mapM {A B} (f : A -> Res B) (l : list A) : Res (list B) :=
  match l with
  | [] => Ok []
  | x :: l' => y ← f x; ys ← mapM f l'; Ok (y :: ys)
  end.

Definition parse_rdn (s : string) : Res rdn := mapM parse_ava (split "+" s).

Definition reference_str2dn (v : dn_arg) : Res parsed_dn :=
  match v with
  | DnStr EmptyString => Ok []
  | DnStr s => mapM parse_rdn (split "," s)
  | DnList [] => Ok []
  | DnList (_ :: _) => Raise TypeError
  end.

(** A server that answers a search by looking its filter up in a table,
    accepts every bind and every modification. *)
Definition table_server (table : list (string * list (string * entry)))
  : connection :=
  {| answer_search := fun _ _ _ what _ =>
       Ok (default [] (snd <$> List.find (fun row => String.eqb (fst row) what) table));
     answer_bind := fun _ _ _ => Ok tt;
     answer_modify := fun _ _ _ => Ok tt |}.

Definition wrapper_of (conn : connection) (search_filter : string) : LdapWrapper :=
  {| _conn := conn; _base := "dc=example,dc=com"; _filter := search_filter;
     mail_attr := "mail"; firstname_attr := "givenName"; lastname_attr := "sn";
     login_attr := "cn"; manager_attr := "manager"; country_attr := "c";
     admin_dn := "cn=hr,ou=groups,dc=example,dc=com" |}.

Definition jdoe_dn : string := "cn=jdoe,c=fr,dc=example,dc=com".

Definition jdoe_entry (manager_dn : string) : entry :=
  <["cn" := ["jdoe"]]> (<["mail" := ["jdoe@example.com"]]>
  (<["uid" := ["1001"]]> (<["givenName" := ["John"]]>
  (<["sn" := ["Doe"]]> (<["manager" := [manager_dn]]> ∅))))).

Definition boss_dn : string := "cn=boss,c=fr,dc=example,dc=com".
Definition boss_uid_dn : string := "uid=boss,c=fr,dc=example,dc=com".

(** A directory that knows [jdoe] under the filter [search_user_by_login]
    builds from the template [(cn=%s)]. *)
Definition jdoe_directory (manager_dn : string) : LdapWrapper :=
  wrapper_of
    (table_server [("(cn=cn=*jdoe*)", [(jdoe_dn, jdoe_entry manager_dn)])])
    "(cn=%s)".

Definition empty_directory : LdapWrapper := wrapper_of (table_server []) "(cn=%s)".

(** A [str2dn] that takes a DN string only: handed a list that holds a
    value, it raises [TypeError], as [reference_str2dn] does. *)
Definition strings_only (str2dn : dn_arg -> Res parsed_dn) : Prop :=
  forall (m : string) (ms : list string),
    str2dn (DnList (m :: ms)) = Raise TypeError.

Definition hr_group_dn : string := "cn=hr,ou=groups,dc=example,dc=com".

Definition hr_group (members : list string) : entry := {["member" := members]}.

(** A directory whose admin subtree holds one group with [jdoe] as its
    only member, and that knows [jdoe] as [jdoe_directory] does. *)
Definition hr_directory : LdapWrapper :=
  wrapper_of
    (table_server [("(member=*)", [(hr_group_dn, hr_group [jdoe_dn])]);
                   ("(cn=cn=*jdoe*)", [(jdoe_dn, jdoe_entry boss_dn)])])
    "(cn=%s)".

(** Attributes the values of the profile depend on. *)
Definition profile_attrs (self : LdapWrapper) : list string :=
  [mail_attr self; firstname_attr self; lastname_attr self;
   login_attr self; manager_attr self].

(** The values of the RDNs whose leading assertion has attribute [key]. *)
Definition values_of (key : string) (rdns : parsed_dn) : list string :=
  omap (fun r : rdn =>
          match r with
          | a :: _ => if String.eqb a.1.1 key then Some a.1.2 else None
          | [] => None
          end) rdns.

(** Every value [str2dn] returns is shorter than the string it parsed. *)
Definition values_shorter (str2dn : dn_arg -> Res parsed_dn) : Prop :=
  forall (s : string) (rdns : parsed_dn) (r : rdn) (a : ava),
    str2dn (DnStr s) = Ok rdns -> r ∈ rdns -> a ∈ r ->
    String.length a.1.2 < String.length s.

(** [hashPassword]: [salt] is what [os.urandom(4)] returned. *)
Definition hashPassword (salt : string) (password : string) : string :=
  let h := Sha1.sha1 password in
  let h := Sha1.update h salt in
  "{SSHA}" +:+ Base64.urlsafe_b64encode (Sha1.digest h +:+ salt).

(** How a reader of the [{SSHA}] format checks a password against a stored
    credential: decode, split off the trailing four salt bytes, hash again. *)
Definition strip_scheme (cred : string) : option string :=
  if String.prefix "{SSHA}" cred
  then Some (String.substring 6 (String.length cred - 6) cred)
  else None.

Definition split_salt (blob : string) : string * string :=
  let n := (String.length blob - 4)%nat in
  (String.substring 0 n blob, String.substring n 4 blob).

Definition check_ssha (password cred : string) : bool :=
  match strip_scheme cred ≫= Base64.urlsafe_b64decode with
  | Some blob =>
      let '(d, salt) := split_salt blob in
      bool_decide (Sha1.digest (Sha1.update (Sha1.sha1 password) salt) = d)
  | None => false
  end.

End Ldap.

(** ** pyvac/views/base.py

    Calls to [log] are not modelled. *)

Module Views.

(** A model instance is its attribute dictionary. *)
Abbreviation Model := (gmap string string).

Record User := { is_admin : bool; is_super : bool }.

(** The relational session: the stored rows by identifier and the pending
    additions and deletions. *)
Record Session := {
  store : gmap Z Model;
  added : list Model;
  deleted : list Model;
}.

Record Request := {
  params : list (string * string);
  matchdict : gmap string string;
  csrf_token : string;
  authenticated_userid : option string;
}.

Record pyvac_global := {
  version : string;
  global_login : string;
  global_user : option User;
  requests_count : option Z;
}.

(** The values of a template-variable mapping. *)
Inductive value :=
  | VErrors (errors : list string)
  | VModel (model : Model)
  | VToken (token : string)
  | VGlobal (g : pyvac_global).

Inductive Response :=
  | Payload (vars : gmap string value)
  | HTTPFound (location : string).

(** The calls a dispatch makes on its collaborators, in order.  [validated]
    is recorded when [self.validate] has returned, with the error list it
    left. *)
Inductive call :=
  | get_model_called
  | validated (errors : list string)
  | update_model_called
  | model_validate_called
  | save_model_called
  | update_view_called
  | redirect_called
  | flush_called.

Record World := {
  session : Session;
  calls : list call;
}.

(** Run a collaborator, which sees the session only. *)
Definition on_session {A} (m : M Session A) : M World A := fun w =>
  let '(r, s) := m (session w) in (r, {| session := s; calls := calls w |}).

Definition record (c : call) : M World unit := fun w =>
  (Ok tt, {| session := session w; calls := calls w ++ [c] |}).

(** What the framework and the model layer provide. *)
Record Env := {
  __version__ : string;
  route_url : option string -> Request -> gmap string string -> Res string;
  session_flush : M Session unit;
  User_by_login : string -> M Session (option User);
  Request_all_for_admin : M Session Z;
  Request_by_manager : User -> M Session Z;
  Request_by_user : User -> M Session Z;
}.

(** The model class of a create, edit or delete view, with the hooks a
    view subclass may define.  [validate model errors] gives the error list
    as the call leaves it. *)
Record Crud := {
  __tablename__ : string;
  model_new : M Session Model;
  model_validate : Model -> M Session unit;
  validate : Model -> list string -> M Session (list string);
  update_view : Model -> gmap string value -> M Session (gmap string value);
  matchdict_key : string;
  redirect_route : option string;
  redirect_kwargs : gmap string string;
}.

(** Modelled from the spec: [Model.by_id] of [pyvac.models], which is not
    part of the sources at hand.  The spec says the model is loaded by the
    identifier of the request path and that a load failure (no such
    identifier) is a fatal error for the request. *)
Definition by_id (s : Session) (ident : Z) : Res Model :=
  match store s !! ident with
  | Some m => Ok m
  | None => Raise (LookupFailure ident)
  end.

Definition load (ident : Z) : M World Model := fun w =>
  (by_id (session w) ident, w).

(** The instance attributes [ViewBase.__init__] sets. *)
Record ViewBase := {
  request : Request;
  login : string;
  user : option User;
}.

(** The methods a view class may override. *)
Record ViewClass := {
  render : M World Response;
  update_response : Response -> World -> Res unit * Response * World;
  on_error : exn -> M World bool;
}.

Section Views.

Variable env : Env.

Definition __init__ (req : Request) : M World ViewBase :=
  match authenticated_userid req with
  | Some l =>
      if bool_decide (l = "")
      then mret {| request := req; login := "anonymous"; user := None |}
      else u ← on_session (User_by_login env l);
           mret {| request := req; login := l; user := u |}
  | None => mret {| request := req; login := "anonymous"; user := None |}
  end.

Definition flush : M World unit :=
  _ ← record flush_called; on_session (session_flush env).

(** The [except Exception] clause of [__call__].  [response] is the local
    variable of [__call__], unbound when [render] raised. *)
Definition handle (v : ViewClass) (response : option Response) (e : exn)
  : M World Response :=
  if is_Exception e then
    reraise ← on_error v e;
    if (reraise : bool) then raise e
    else match response with
         | Some r => mret r
         | None => raise UnboundLocalError
         end
  else raise e.

Definition __call__ (v : ViewClass) : M World Response := fun w =>
  match render v w with
  | (Raise e, w1) => handle v None e w1
  | (Ok response, w1) =>
      match update_response v response w1 with
      | (Raise e, response, w2) => handle v (Some response) e w2
      | (Ok _, response, w2) =>
          match flush w2 with
          | (Raise e, w3) => handle v (Some response) e w3
          | (Ok _, w3) => (Ok response, w3)
          end
      end
  end.

(** *** class ViewBase *)

Definition ViewBase_update_response (response : Response) (w : World)
  : Res unit * Response * World := (Ok tt, response, w).

Definition ViewBase_on_error (exception : exn) : M World bool := mret true.

Definition ViewBase_render : M World Response := mret (Payload ∅).

Definition ViewBase_class : ViewClass :=
  {| render := ViewBase_render;
     update_response := ViewBase_update_response;
     on_error := ViewBase_on_error |}.

(** *** class View *)

Definition View_update_response (self : ViewBase) (response : Response)
    (w : World) : Res unit * Response * World :=
  match response with
  | Payload vars =>
      let count : M World (option Z) :=
        match user self with
        | Some u =>
            n ← on_session
                  (if is_admin u then Request_all_for_admin env
                   else if is_super u then Request_by_manager env u
                   else Request_by_user env u);
            mret (Some n)
        | None => mret None
        end in
      match count w with
      | (Ok n, w') =>
          (Ok tt,
           Payload (<["pyvac" := VGlobal {| version := __version__ env;
                                            global_login := login self;
                                            global_user := user self;
                                            requests_count := n |}]> vars),
           w')
      | (Raise e, w') => (Raise e, response, w')
      end
  | HTTPFound _ => (Ok tt, response, w)
  end.

(** *** class RedirectView *)

Definition redirect (self : ViewBase) (c : Crud) : M World Response :=
  _ ← record redirect_called;
  location ← lift (route_url env (redirect_route c) (request self)
                             (redirect_kwargs c));
  mret (HTTPFound location).

(** *** class CreateView *)

(** The loop of [parse_form] over [params.items()]. *)
Fixpoint parse_form_loop (prefix : string) (items : list (string * string))
    (kwargs : gmap string string) : Res (gmap string string) :=
  match items with
  | [] => Ok kwargs
  | (k, v) :: rest =>
      if negb (bool_decide (v = "")) && String.prefix prefix k then
        '(field, _) ← pop (split "." k);
        parse_form_loop prefix rest (<[field := v]> kwargs)
      else parse_form_loop prefix rest kwargs
  end.

Definition parse_form (self : ViewBase) (c : Crud) : Res (gmap string string) :=
  parse_form_loop (__tablename__ c) (params (request self)) ∅.

(** [setattr(model, k, v)]. *)
Definition setattr (model : Model) (k v : string) : Model := <[k := v]> model.

Definition update_model (self : ViewBase) (c : Crud) (model : Model)
  : Res Model :=
  kwargs ← parse_form self c;
  Ok (foldl (fun m kv => setattr m kv.1 kv.2) model (map_to_list kwargs)).

Definition CreateView_get_model (self : ViewBase) (c : Crud) : M World Model :=
  _ ← record get_model_called; on_session (model_new c).

Definition save_model (model : Model) : M World unit := fun w =>
  (Ok tt,
   {| session := {| store := store (session w);
                    added := added (session w) ++ [model];
                    deleted := deleted (session w) |};
      calls := calls w ++ [save_model_called] |}).

Definition has_key (k : string) (items : list (string * string)) : bool :=
  bool_decide (k ∈ items.*1).

(** The [try] statement of [render]: a [ModelError] extends the error
    list, any other exception propagates.  The result is the model and the
    error list after the statement. *)
Definition except_ModelError (model : Model) (errors : list string) (e : exn)
  : M World (Model * list string) :=
  match is_ModelError e with
  | Some errs => mret (model, errors ++ errs)
  | None => raise e
  end.

Definition try_update (self : ViewBase) (c : Crud) (model : Model)
    (errors : list string) : M World (Model * list string) := fun w =>
  let '(_, w) := record update_model_called w in
  match update_model self c model with
  | Raise e => except_ModelError model errors e w
  | Ok model =>
      let '(_, w) := record model_validate_called w in
      match on_session (model_validate c model) w with
      | (Ok _, w) => (Ok (model, errors), w)
      | (Raise e, w) => except_ModelError model errors e w
      end
  end.

(** From the second [if not errors] to the end of [render]. *)
Definition render_end (self : ViewBase) (c : Crud) (model : Model)
    (errors : list string) (submitted : bool) : M World Response :=
  if submitted && bool_decide (errors = []) then
    _ ← save_model model; redirect self c
  else
    let rv : gmap string value :=
      <["csrf_token" := VToken (csrf_token (request self))]>
        (<[__tablename__ c := VModel model]>
           (<["errors" := VErrors errors]> ∅)) in
    _ ← record update_view_called;
    rv ← on_session (update_view c model rv);
    mret (Payload rv).

Definition render_with (get_model : M World Model) (self : ViewBase)
    (c : Crud) : M World Response :=
  if has_key "form.cancelled" (params (request self)) then redirect self c
  else
    model ← get_model;
    if has_key "form.submitted" (params (request self)) then
      errors ← on_session (validate c model []);
      _ ← record (validated errors);
      '(model, errors) ←
        (if bool_decide (errors = []) then try_update self c model errors
         else mret (model, errors));
      render_end self c model errors true
    else render_end self c model [] false.

Definition CreateView_render (self : ViewBase) (c : Crud) : M World Response :=
  render_with (CreateView_get_model self c) self c.

(** The base implementations of the hooks of [CreateView]. *)
Definition CreateView_validate (model : Model) (errors : list string)
  : M Session (list string) := mret errors.

Definition CreateView_update_view (model : Model) (view : gmap string value)
  : M Session (gmap string value) := mret view.

Definition CreateView_class (self : ViewBase) (c : Crud) : ViewClass :=
  {| render := CreateView_render self c;
     update_response := View_update_response self;
     on_error := ViewBase_on_error |}.

(** *** class EditView *)

Definition EditView_get_model (self : ViewBase) (c : Crud) : M World Model :=
  _ ← record get_model_called;
  key ← lift (getitem (matchdict (request self)) (matchdict_key c));
  ident ← lift (int key);
  load ident.

Definition EditView_render (self : ViewBase) (c : Crud) : M World Response :=
  render_with (EditView_get_model self c) self c.

Definition EditView_class (self : ViewBase) (c : Crud) : ViewClass :=
  {| render := EditView_render self c;
     update_response := View_update_response self;
     on_error := ViewBase_on_error |}.

(** *** class DeleteView *)

Definition delete (model : Model) : M World unit := fun w =>
  (Ok tt,
   {| session := {| store := store (session w);
                    added := added (session w);
                    deleted := deleted (session w) ++ [model] |};
      calls := calls w |}).

Definition DeleteView_render (self : ViewBase) (c : Crud) : M World Response :=
  key ← lift (getitem (matchdict (request self)) (matchdict_key c));
  ident ← lift (int key);
  model ← load ident;
  if has_key "form.submitted" (params (request self)) then
    _ ← delete model; redirect self c
  else mret (Payload {[__tablename__ c := VModel model]}).

End Views.

(** *** Reading aids and sample views *)





Definition plain_env : Env :=
  {| __version__ := "1.0";
     route_url := fun route _ _ => Ok ("/" +:+ str_of route);
     session_flush := mret tt;
     User_by_login := fun _ => mret None;
     Request_all_for_admin := mret 0%Z;
     Request_by_manager := fun _ => mret 0%Z;
     Request_by_user := fun _ => mret 0%Z |}.

(** A view on the model [user] with the base hooks of [CreateView] and
    the given model-level validation. *)
Definition user_view (model_validate : Model -> M Session unit) : Crud :=
  {| __tablename__ := "user";
     model_new := mret ∅;
     model_validate := model_validate;
     validate := CreateView_validate;
     update_view := CreateView_update_view;
     matchdict_key := "user_id";
     redirect_route := Some "list_user";
     redirect_kwargs := ∅ |}.

(** A model-level validation that always fails. *)
Definition taken : Model -> M Session unit :=
  fun _ => raise (ModelError ["login already used"]).

Definition anonymous (items : list (string * string))
    (path : gmap string string) : ViewBase :=
  {| request := {| params := items; matchdict := path;
                   csrf_token := "token"; authenticated_userid := None |};
     login := "anonymous"; user := None |}.

Definition fresh : World :=
  {| session := {| store := ∅; added := []; deleted := [] |}; calls := [] |}.

(** A view class whose error hook flushes the session itself and then asks
    to re-raise, around a given [render]. *)
Definition flushing_class (env : Env) (r : M World Response) : ViewClass :=
  {| render := r;
     update_response := ViewBase_update_response;
     on_error := fun _ => _ ← flush env; mret true |}.

End Views.

(** ** pyvac/helpers/ldap.py, the rest of the module *)

Module LdapMore.
Import Ldap.

(** *** randomstring *)

(** [string.letters] in the C locale, and [string.digits]. *)
Definition letters : string :=
  "abcdefghijklmnopqrstuvwxyzABCDEFGHIJKLMNOPQRSTUVWXYZ".
Definition digit_chars : string := "0123456789".

(** [random.choice(seq)]: the element at a random index below the length;
    [draw] is the random number the index is taken from.  An empty
    sequence has no such index. *)
Definition choice (seq : string) (draw : nat) : Res ascii :=
  match String.get (draw mod String.length seq) seq with
  | Some c => Ok c
  | None => Raise IndexError
  end.

(** [rnd i] is the random number of the [i]-th call of [random.choice]. *)
Definition randomstring (rnd : nat -> nat) (length : nat) : Res string :=
  let chars := letters +:+ digit_chars in
  data ← mapM (fun i => choice chars (rnd i)) (seq 0 length);
  Ok (string_of_list_ascii data).

(** *** LdapWrapper.add_user *)

(** The payload of [addModlist]: attribute names with their values. *)
Abbreviation addlist := (list (string * list string)).

Record add_request := { add_dn : string; add_ldif : addlist }.

(** [if x:] on a value that is a string or [None]. *)
Definition truthy (v : option string) : bool :=
  match v with
  | Some s => negb (bool_decide (s = ""))
  | None => false
  end.

Section AddUser.

(** [ldap.modlist.addModlist] belongs to python-ldap; [answer_add] is the
    answer of the server to an add request, given the earlier ones. *)
Variable addModlist : entry -> addlist.
Variable answer_add : list add_request -> string -> addlist -> Res unit.

Variable self : LdapWrapper.

(** The random numbers of [random.choice] and the bytes of [os.urandom(4)]. *)
Variable rnd : nat -> nat.
Variable salt : string.

Definition add_s (who : string) (ldif : addlist) : M (list add_request) unit :=
  fun sent =>
    (answer_add sent who ldif,
     sent ++ [{| add_dn := who; add_ldif := ldif |}]).

Definition add_user (login manager country firstname lastname mail : string)
    (unit uid : option string) : M (list add_request) string :=
  dn ← lift (format "cn=%s,c=%s,%s" [login; country; _base self]);
  let attrs : entry := ∅ in
  let attrs := <["objectClass" := ["inetOrgPerson"; "top"]]> attrs in
  let attrs := <["employeeType" := ["Employee"]]> attrs in
  let attrs := <["cn" := [login]]> attrs in
  let attrs := <["givenName" := [firstname]]> attrs in
  let attrs := <["sn" := [lastname]]> attrs in
  let attrs := if truthy uid then <["uid" := [str_of uid]]> attrs else attrs in
  let attrs := <["mail" := [mail]]> attrs in
  let unit := if truthy unit then str_of unit else "development" in
  let attrs := <["ou" := [unit]]> attrs in
  password ← lift (randomstring rnd 8);
  let attrs := <["userPassword" := [hashPassword salt password]]> attrs in
  let attrs := <["manager" := [manager]]> attrs in
  let ldif := addModlist attrs in
  _ ← add_s dn ldif;
  mret password.

End AddUser.

(** *** LdapWrapper.__init__ and class LdapCache *)

(** The keys [__init__] reads, in the order it reads them. *)
Definition config_keys : list string :=
  ["ldap_url"; "basedn"; "search_filter"; "mail_attr"; "firstname_attr";
   "lastname_attr"; "login_attr"; "manager_attr"; "country_attr";
   "admin_dn"; "system_dn"; "system_pass"].

Section Init.

(** [ldap.initialize(url)]: the connection to the server at [url]. *)
Variable initialize : string -> connection.

(** [conf] is the mapping [yaml.load] returned for the configuration
    file. *)
Definition __init__ (conf : gmap string string) : M history LdapWrapper :=
  url ← lift (getitem conf "ldap_url");
  base ← lift (getitem conf "basedn");
  filter ← lift (getitem conf "search_filter");
  mail ← lift (getitem conf "mail_attr");
  first ← lift (getitem conf "firstname_attr");
  last ← lift (getitem conf "lastname_attr");
  login ← lift (getitem conf "login_attr");
  manager ← lift (getitem conf "manager_attr");
  country ← lift (getitem conf "country_attr");
  admin ← lift (getitem conf "admin_dn");
  system_DN ← lift (getitem conf "system_dn");
  system_password ← lift (getitem conf "system_pass");
  let conn := initialize url in
  _ ← simple_bind_s conn system_DN system_password;
  mret {| _conn := conn; _base := base; _filter := filter;
          mail_attr := mail; firstname_attr := first; lastname_attr := last;
          login_attr := login; manager_attr := manager;
          country_attr := country; admin_dn := admin |}.

(** The class attribute [_instance] of [LdapCache], with the requests the
    process has sent. *)
Record cache := {
  _instance : option LdapWrapper;
  sent : history;
}.

Definition RuntimeError : exn := OtherException "RuntimeError".

(** [LdapCache()]. *)
Definition __new__ : M cache LdapWrapper := fun st =>
  match _instance st with
  | Some w => (Ok w, st)
  | None => (Raise RuntimeError, st)
  end.

Definition from_config (config : gmap string string) : M history LdapWrapper :=
  __init__ config.

(** The assignment to [_instance] happens only when [from_config]
    returned. *)
Definition configure (settings : gmap string string) : M cache unit := fun st =>
  match from_config settings (sent st) with
  | (Ok w, h) => (Ok tt, {| _instance := Some w; sent := h |})
  | (Raise e, h) => (Raise e, {| _instance := _instance st; sent := h |})
  end.

End Init.

(** A complete configuration and a server that accepts every request. *)
Definition sample_conf : gmap string string :=
  list_to_map
    [("ldap_url", "ldap://localhost"); ("basedn", "dc=example,dc=com");
     ("search_filter", "(cn=%s)"); ("mail_attr", "mail");
     ("firstname_attr", "givenName"); ("lastname_attr", "sn");
     ("login_attr", "cn"); ("manager_attr", "manager");
     ("country_attr", "c"); ("admin_dn", "cn=hr,ou=groups,dc=example,dc=com");
     ("system_dn", "cn=admin,dc=example,dc=com"); ("system_pass", "s3cret")].

Definition open_server : string -> connection := fun _ => table_server [].

(** *** Reading aids and sample data *)

(** The characters of the URL-safe alphabet, without the padding. *)
Definition in_alphabet (c : ascii) : Prop :=
  In c (list_ascii_of_string Base64.alphabet).

(** The characters [randomstring] draws from. *)
Definition password_char (c : ascii) : Prop :=
  In c (list_ascii_of_string (letters +:+ digit_chars)).

(** The first key of a list that a configuration lacks. *)
Definition first_missing (conf : gmap string string) (keys : list string)
  : option string :=
  List.find (fun k => bool_decide (conf !! k = None)) keys.

(** A directory whose answer for [jdoe] has an empty DN. *)
Definition nameless_directory : LdapWrapper :=
  wrapper_of (table_server [("(cn=cn=*jdoe*)", [("", jdoe_entry boss_dn)])])
    "(cn=%s)".

(** A configuration that reads mail and first name from the same
    attribute. *)
Definition shared_wrapper : LdapWrapper :=
  {| _conn := table_server []; _base := "dc=example,dc=com";
     _filter := "(cn=%s)";
     mail_attr := "cn"; firstname_attr := "cn"; lastname_attr := "sn";
     login_attr := "cn"; manager_attr := "manager"; country_attr := "c";
     admin_dn := "cn=hr,ou=groups,dc=example,dc=com" |}.

(** A directory that knows [jdoe] under the filter [update_user] builds. *)
Definition update_directory : LdapWrapper :=
  wrapper_of
    (table_server [("(cn=cn=jdoe,c=fr,dc=example,dc=com)",
                    [(jdoe_dn, jdoe_entry boss_dn)])])
    "(cn=%s)".

End LdapMore.

(** ** pyvac/views/base.py, reading aids for the flows *)

Module ViewsMore.
Import Views.

Section Flows.

Variable env : Env.

(** The payload [render] builds before it calls [update_view]. *)
Definition form_payload (self : ViewBase) (c : Crud) (model : Model)
    (errors : list string) : gmap string value :=
  <["csrf_token" := VToken (csrf_token (request self))]>
    (<[__tablename__ c := VModel model]> (<["errors" := VErrors errors]> ∅)).

(** What [render] returns once the payload is built: the outcome of
    [update_view], with the calls made so far. *)
Definition shown (c : Crud) (model : Model) (rv : gmap string value)
    (s : Session) (trace : list call) : Res Response * World :=
  match update_view c model rv s with
  | (Ok rv', s') => (Ok (Payload rv'), {| session := s'; calls := trace |})
  | (Raise x, s') => (Raise x, {| session := s'; calls := trace |})
  end.

(** The value of [self.redirect()]. *)
Definition redirected (self : ViewBase) (c : Crud) : Res Response :=
  match route_url env (redirect_route c) (request self) (redirect_kwargs c) with
  | Ok location => Ok (HTTPFound location)
  | Raise x => Raise x
  end.

End Flows.

(** A view on [user] whose structural validation always reports an error. *)
Definition checked_view : Crud :=
  {| __tablename__ := "user";
     model_new := mret ∅;
     model_validate := fun _ => mret tt;
     validate := fun _ errors => mret (errors ++ ["passwords do not match"]);
     update_view := CreateView_update_view;
     matchdict_key := "user_id";
     redirect_route := Some "list_user";
     redirect_kwargs := ∅ |}.

(** A model-level validation that fails without a message. *)
Definition silent : Model -> M Session unit :=
  fun _ => raise (ModelError []).

(** A view class whose error hook asks not to re-raise, around a given
    [render]. *)
Definition quiet_class (r : M World Response) : ViewClass :=
  {| render := r;
     update_response := ViewBase_update_response;
     on_error := fun _ => mret false |}.

Definition interrupted : M World Response :=
  raise (NonException "KeyboardInterrupt").

Definition failing : M World Response := raise (OtherException "boom").

(** An administrator who is also a delegated approver. *)
Definition admin_view (items : list (string * string)) : ViewBase :=
  {| request := {| params := items; matchdict := ∅;
                   csrf_token := "token";
                   authenticated_userid := Some "root" |};
     login := "root";
     user := Some {| is_admin := true; is_super := true |} |}.

(** A model layer that counts 7 requests in all, 3 for a manager and 1 for
    a user. *)
Definition counting_env : Env :=
  {| __version__ := "1.0";
     route_url := fun route _ _ => Ok ("/" +:+ str_of route);
     session_flush := mret tt;
     User_by_login := fun _ => mret None;
     Request_all_for_admin := mret 7%Z;
     Request_by_manager := fun _ => mret 3%Z;
     Request_by_user := fun _ => mret 1%Z |}.

End ViewsMore.

(** * Properties *)

Ltac munfold :=
  unfold mbind, mret, M_bind, M_ret, Res_bind, Res_ret, bind, ret, raise, lift
    in *.

Ltac elem_solve :=
  repeat first [apply list_elem_of_here | apply list_elem_of_further].

(** ** The runtime *)

Module PyFacts.

Example format_one : format "(cn=%s)" ["jdoe"] = Ok "(cn=jdoe)".
Proof. reflexivity. Qed.

Example format_dn :
  format "cn=%s,c=%s,%s" ["jdoe"; "fr"; "dc=example,dc=com"]
  = Ok "cn=jdoe,c=fr,dc=example,dc=com".
Proof. reflexivity. Qed.

Example format_left_over : format "(cn=jdoe)" ["x"] = Raise TypeError.
Proof. reflexivity. Qed.

Example format_missing : format "(%s=%s)" ["cn"] = Raise TypeError.
Proof. reflexivity. Qed.

Example split_dots : split "." "user.a.b" = ["user"; "a"; "b"].
Proof. reflexivity. Qed.

Example split_trailing : split "." "user." = ["user"; ""].
Proof. reflexivity. Qed.

Example int_42 : int " 42 " = Ok 42%Z.
Proof. reflexivity. Qed.

Example int_minus : int "-7" = Ok (-7)%Z.
Proof. reflexivity. Qed.

Example int_bad : int "4x2" = Raise ValueError.
Proof. reflexivity. Qed.

Lemma format_login (x : string) :
  format "cn=*%s*" [x] = Ok ("cn=*" +:+ x +:+ "*").
Proof. reflexivity. Qed.



Lemma length_append (a b : string) :
  String.length (a +:+ b) = String.length a + String.length b.
Proof. induction a as [|c a IH]; simpl; [reflexivity | now rewrite IH]. Qed.

Lemma append_empty_r (s : string) : s +:+ "" = s.
Proof.
  induction s as [|c s IH]; [reflexivity|].
  change (String c (s +:+ "") = String c s). now rewrite IH.
Qed.

Lemma split_pieces_short (sep : ascii) (s piece : string) :
  piece ∈ split sep s -> String.length piece <= String.length s.
Proof.
  revert piece. induction s as [|c s IH]; simpl; intros piece Hin.
  - apply list_elem_of_singleton in Hin. subst. simpl. lia.
  - destruct (Ascii.eqb c sep).
    + apply elem_of_cons in Hin as [->|Hin]; simpl; [lia|].
      apply IH in Hin. lia.
    + destruct (split sep s) as [|p ps] eqn:E.
      * apply list_elem_of_singleton in Hin. subst. simpl. lia.
      * apply elem_of_cons in Hin as [->|Hin]; simpl.
        -- assert (String.length p <= String.length s)
             by (apply IH; left). lia.
        -- assert (String.length piece <= String.length s)
             by (apply IH; now right). lia.
Qed.

End PyFacts.

(** ** The LDAP helper *)

Module LdapFacts.
Import Ldap.

(** *** The reference parser *)

Lemma cut_shorter (sep : ascii) (s a b : string) :
  cut sep s = Some (a, b) -> String.length b < String.length s.
Proof.
  revert a b. induction s as [|c s IH]; simpl; intros a b H; [discriminate|].
  destruct (Ascii.eqb c sep).
  - inversion H; subst. lia.
  - destruct (cut sep s) as [[a' b']|] eqn:E; simpl in H; [|discriminate].
    inversion H; subst. specialize (IH _ _ eq_refl). lia.
Qed.

Lemma mapM_elem {A B} (f : A -> Res B) (l : list A) (ys : list B) (y : B) :
  mapM f l = Ok ys -> y ∈ ys -> exists x, x ∈ l /\ f x = Ok y.
Proof.
  revert ys. induction l as [|x l IH]; simpl; intros ys H Hy.
  - inversion H; subst. inversion Hy.
  - destruct (f x) as [b|] eqn:Ef; simpl in H; [|discriminate].
    destruct (mapM f l) as [bs|] eqn:El; simpl in H; [|discriminate].
    inversion H; subst.
    apply elem_of_cons in Hy as [->|Hy].
    + exists x. split; [left | assumption].
    + destruct (IH bs eq_refl Hy) as (x' & Hx' & Hf).
      exists x'. split; [now right | assumption].
Qed.

Lemma reference_values_shorter : values_shorter reference_str2dn.
Proof.
  intros s rdns r a Hs Hr Ha.
  assert (Hm : mapM parse_rdn (split "," s) = Ok rdns).
  { destruct s; simpl in Hs; [|exact Hs].
    inversion Hs; subst. inversion Hr. }
  destruct (mapM_elem _ _ _ _ Hm Hr) as (piece & Hpiece & Hrdn).
  destruct (mapM_elem _ _ _ _ Hrdn Ha) as (x & Hx & Hava).
  apply PyFacts.split_pieces_short in Hpiece, Hx.
  unfold parse_ava in Hava.
  destruct (cut "=" x) as [[k v]|] eqn:E; [|discriminate].
  inversion Hava; subst. simpl.
  apply cut_shorter in E. lia.
Qed.

Ltac fresh_attr :=
  let E := fresh in
  intros E;
  match goal with
  | N : _ ∉ _ |- _ => apply N; rewrite E;
      repeat first [apply list_elem_of_here | apply list_elem_of_further]
  | N : _ ∉ _ |- _ => apply N; rewrite <- E;
      repeat first [apply list_elem_of_here | apply list_elem_of_further]
  end.

Section Wrapper.

Variable str2dn : dn_arg -> Res parsed_dn.
Variable self : LdapWrapper.

(** *** The loops over the RDNs of a DN *)

Lemma first_rdn_value_total (key : string) (rdns : parsed_dn) :
  Forall (fun r => r <> []) rdns ->
  exists v, first_rdn_value key rdns = Ok v.
Proof.
  induction 1 as [|r rdns Hr _ IH]; simpl; [eauto|].
  destruct r as [|a r]; [contradiction|]. simpl.
  destruct (String.eqb a.1.1 key); eauto.
Qed.

Lemma first_rdn_value_head (key : string) (rdns : parsed_dn) :
  Forall (fun r => r <> []) rdns ->
  first_rdn_value key rdns = Ok (head (values_of key rdns)).
Proof.
  induction 1 as [|r rdns Hr _ IH]; simpl; [reflexivity|].
  destruct r as [|a r]; [contradiction|]. simpl.
  destruct (String.eqb a.1.1 key); simpl; [reflexivity | exact IH].
Qed.

Lemma manager_loop_last (key : string) (rdns : parsed_dn) (cur : string) :
  Forall (fun r => r <> []) rdns ->
  manager_loop key rdns cur = Ok (default cur (last (values_of key rdns))).
Proof.
  intros H. revert cur. induction H as [|r rdns Hr _ IH]; intros cur; simpl.
  - reflexivity.
  - destruct r as [|a r]; [contradiction|]. simpl. rewrite IH.
    destruct (String.eqb a.1.1 key); simpl; [|reflexivity].
    rewrite last_cons. now destruct (last (values_of key rdns)).
Qed.

Lemma values_of_elem (key v : string) (rdns : parsed_dn) :
  v ∈ values_of key rdns ->
  exists (r : rdn) (a : ava), r ∈ rdns /\ a ∈ r /\ a.1.2 = v.
Proof.
  unfold values_of. intros H. apply list_elem_of_omap in H as (r & Hr & Hv).
  destruct r as [|a r]; [discriminate|].
  destruct (String.eqb a.1.1 key); [|discriminate].
  inversion Hv; subst. exists (a :: r), a. repeat split; [assumption | left].
Qed.

(** *** Popping the values of an entry *)

Lemma pop_attr_Ok (e : entry) (attr v : string) (vs : list string) :
  e !! attr = Some vs -> last vs = Some v ->
  pop_attr e attr = Ok (v, <[attr := removelast vs]> e).
Proof.
  intros He Hv. unfold pop_attr, getitem, pop. rewrite He. simpl.
  now rewrite Hv.
Qed.




(** *** [parse_ldap_entry] *)

Lemma parse_ldap_entry_profile (user_dn m : string) (e : entry)
    (udn mdn : parsed_dn) :
  user_dn <> "" ->
  NoDup (profile_attrs self) ->
  (forall a, a ∈ profile_attrs self -> exists v, e !! a ≫= last = Some v) ->
  e !! manager_attr self ≫= last = Some m ->
  str2dn (DnStr user_dn) = Ok udn -> Forall (fun r => r <> []) udn ->
  str2dn (DnStr m) = Ok mdn -> Forall (fun r => r <> []) mdn ->
  exists p,
    parse_ldap_entry str2dn self user_dn e = Ok (Some p)
    /\ manager p = default m (last (values_of (login_attr self) mdn))
    /\ dn p = user_dn
    /\ country p = head (values_of (country_attr self) udn)
    /\ e !! mail_attr self ≫= last = Some (email p)
    /\ e !! firstname_attr self ≫= last = Some (firstname p)
    /\ e !! lastname_attr self ≫= last = Some (lastname p)
    /\ e !! login_attr self ≫= last = Some (login p).
Proof.
  intros Hdn Hnd Hall Hm Hu Hfu Hmd Hfm.
  unfold profile_attrs in *.
  assert (Hv : forall a, a ∈ [mail_attr self; firstname_attr self;
                lastname_attr self; login_attr self; manager_attr self] ->
              exists vs v, e !! a = Some vs /\ last vs = Some v).
  { intros a Ha. destruct (Hall a Ha) as [v Hv].
    destruct (e !! a) as [vs|]; simpl in Hv; [eauto | discriminate]. }
  destruct (Hv (mail_attr self)) as (vs1 & v1 & E1 & L1); [elem_solve|].
  destruct (Hv (firstname_attr self)) as (vs2 & v2 & E2 & L2); [elem_solve|].
  destruct (Hv (lastname_attr self)) as (vs3 & v3 & E3 & L3); [elem_solve|].
  destruct (Hv (login_attr self)) as (vs4 & v4 & E4 & L4); [elem_solve|].
  destruct (Hv (manager_attr self)) as (vs5 & v5 & E5 & L5); [elem_solve|].
  rewrite E5 in Hm. simpl in Hm. rewrite L5 in Hm. inversion Hm; subst v5.
  apply NoDup_cons in Hnd as [N1 Hnd]. apply NoDup_cons in Hnd as [N2 Hnd].
  apply NoDup_cons in Hnd as [N3 Hnd]. apply NoDup_cons in Hnd as [N4 _].
  assert (Hne : e <> ∅) by (intros ->; rewrite lookup_empty in E1; discriminate).
  unfold parse_ldap_entry.
  rewrite (bool_decide_eq_false_2 _ Hdn), (bool_decide_eq_false_2 _ Hne).
  simpl.
  rewrite (pop_attr_Ok _ _ _ _ E1 L1). simpl.
  erewrite pop_attr_Ok; [|rewrite lookup_insert_ne; [exact E2 | fresh_attr] | exact L2].
  simpl.
  erewrite pop_attr_Ok; [|rewrite !lookup_insert_ne; [exact E3 | fresh_attr..] | exact L3].
  simpl.
  erewrite pop_attr_Ok; [|rewrite !lookup_insert_ne; [exact E4 | fresh_attr..] | exact L4].
  simpl.
  erewrite pop_attr_Ok; [|rewrite !lookup_insert_ne; [exact E5 | fresh_attr..] | exact L5].
  simpl.
  unfold _extract_country. rewrite Hu. simpl.
  rewrite (first_rdn_value_head _ _ Hfu). simpl.
  rewrite Hmd. simpl. rewrite (manager_loop_last _ _ _ Hfm). simpl.
  eexists. split; [reflexivity|]. simpl.
  rewrite E1, E2, E3, E4. simpl. rewrite L1, L2, L3, L4. tauto.
Qed.



(** *** Searches *)

(** C1, amended.  With the filter template [(cn=%s)] and the login [jdoe],
    [search_user_by_login] sends exactly one request: a subtree search of
    the base DN whose filter is the template filled with the substring item
    [cn=*jdoe*] (so the filter reads [cn=cn=*jdoe*] between its brackets),
    with the attribute list [cn, mail, uid, givenName, sn, manager]; it
    raises [UnknownLdapUser] whenever that search returns no result. *)
Theorem search_user_by_login_jdoe (h : history) :
  _filter self = "(cn=%s)" ->
  let attrs := Some ["cn"; "mail"; "uid"; "givenName"; "sn"; "manager"] in
  (search_user_by_login str2dn self (Some "jdoe") h).2
  = h ++ [Search (_base self) SCOPE_SUBTREE "(cn=cn=*jdoe*)" attrs]
  /\ (answer_search (_conn self) h (_base self) SCOPE_SUBTREE
        "(cn=cn=*jdoe*)" attrs = Ok [] ->
      (search_user_by_login str2dn self (Some "jdoe") h).1
      = Raise UnknownLdapUser).
Proof.
  intros Hf attrs.
  assert (Hitem : format "cn=*%s*" [str_of (Some "jdoe")] = Ok "cn=*jdoe*")
    by reflexivity.
  assert (Hwhat : format "(cn=%s)" ["cn=*jdoe*"] = Ok "(cn=cn=*jdoe*)")
    by reflexivity.
  unfold search_user_by_login, _search_by_item, _search, search_s.
  rewrite Hitem, Hf. munfold. rewrite Hwhat. fold attrs.
  change (Some required_fields) with attrs.
  destruct (answer_search _ h _ _ _ attrs) as [[|[d e] rest]|x] eqn:E; simpl.
  - split; [reflexivity | reflexivity].
  - split; [reflexivity | discriminate].
  - split; [reflexivity | discriminate].
Qed.

(** The DN [update_user] builds for a login and a country. *)
Lemma update_user_dn (login country : string) :
  format "cn=%s,c=%s,%s" [login; country; _base self]
  = Ok ("cn=" +:+ login +:+ ",c=" +:+ country +:+ "," +:+ _base self).
Proof. simpl. now rewrite PyFacts.append_empty_r. Qed.

(** C2: what the code does.  When the search for the reconstructed DN
    returns no entry, [update_user] fails on [res[0]] with [IndexError]; it
    does not raise [UnknownLdapUser], and no modification is sent. *)
Theorem update_user_no_entry (modifyModlist : entry -> entry -> modlist)
    (login country what : string) (fields : entry) (h : history) :
  let attrs := Some ["objectClass"; "employeeType"; "cn"; "givenName"; "sn";
                     "manager"; "mail"; "ou"; "uid"] in
  format (_filter self)
    ["cn=" +:+ login +:+ ",c=" +:+ country +:+ "," +:+ _base self] = Ok what ->
  answer_search (_conn self) h (_base self) SCOPE_SUBTREE what attrs = Ok [] ->
  update_user modifyModlist self login country fields h
  = (Raise IndexError, h ++ [Search (_base self) SCOPE_SUBTREE what attrs]).
Proof.
  intros attrs Hwhat Hres. unfold update_user.
  rewrite update_user_dn. munfold. rewrite Hwhat.
  unfold _search, search_s. fold attrs. rewrite Hres. reflexivity.
Qed.

(** C3, amended.  When the first result of the search has a non-empty DN
    and an entry in which the five configured attributes (pairwise distinct
    names) each have a value, and the manager value parses as a DN with at
    least one RDN whose leading attribute is the configured login
    attribute, then [search_user_by_login] yields a profile whose manager
    field is the value of the last such RDN; that value is not the raw
    manager DN.  (With no such RDN the field keeps the raw DN.) *)
Theorem search_user_by_login_manager (login : option string) (h : history)
    (what user_dn m v : string) (e : entry) (rest : list (string * entry))
    (udn mdn : parsed_dn) :
  values_shorter str2dn ->
  format (_filter self) ["cn=*" +:+ str_of login +:+ "*"] = Ok what ->
  answer_search (_conn self) h (_base self) SCOPE_SUBTREE what
    (Some required_fields) = Ok ((user_dn, e) :: rest) ->
  user_dn <> "" ->
  NoDup (profile_attrs self) ->
  (forall a, a ∈ profile_attrs self -> exists x, e !! a ≫= last = Some x) ->
  e !! manager_attr self ≫= last = Some m ->
  str2dn (DnStr user_dn) = Ok udn -> Forall (fun r => r <> []) udn ->
  str2dn (DnStr m) = Ok mdn -> Forall (fun r => r <> []) mdn ->
  last (values_of (login_attr self) mdn) = Some v ->
  exists p,
    search_user_by_login str2dn self login h
    = (Ok (Some p),
       h ++ [Search (_base self) SCOPE_SUBTREE what (Some required_fields)])
    /\ manager p = v
    /\ manager p <> m.
Proof.
  intros Hshort Hwhat Hres Hdn Hnd Hall Hm Hu Hfu Hmd Hfm Hv.
  destruct (parse_ldap_entry_profile user_dn m e udn mdn Hdn Hnd Hall Hm
              Hu Hfu Hmd Hfm) as (p & Hp & Hman & _).
  rewrite Hv in Hman. simpl in Hman.
  exists p. split; [|split; [exact Hman|]].
  - unfold search_user_by_login. rewrite PyFacts.format_login.
    munfold. unfold _search_by_item. munfold. rewrite Hwhat.
    unfold _search, search_s. rewrite Hres. now rewrite Hp.
  - rewrite Hman. intros ->.
    assert (Hin : m ∈ values_of (login_attr self) mdn).
    { apply last_Some in Hv as [l ->]. apply elem_of_app. right. left. }
    apply values_of_elem in Hin as (r & a & Hr & Ha & Hval).
    specialize (Hshort m mdn r a Hmd Hr Ha). rewrite Hval in Hshort. lia.
Qed.

(** The country is never read: outcome and requests are the same for any
    two countries. *)
Lemma get_hr_by_country_ignores_country (country1 country2 : string)
    (h : history) :
  get_hr_by_country str2dn self country1 h
  = get_hr_by_country str2dn self country2 h.
Proof. reflexivity. Qed.

(** Without a result in the admin subtree the loop body never runs and the
    method returns [None]. *)
Lemma get_hr_by_country_no_group (country : string) (h : history) :
  answer_search (_conn self) h (admin_dn self) SCOPE_SUBTREE "(member=*)" None
  = Ok [] ->
  get_hr_by_country str2dn self country h
  = (Ok None, h ++ [Search (admin_dn self) SCOPE_SUBTREE "(member=*)" None]).
Proof.
  intros Hres.
  unfold get_hr_by_country, _search_admin, search_s. munfold.
  now rewrite Hres.
Qed.

(** C9.  [get_hr_by_country] hands the whole value list of [member] of the
    first result to [str2dn], not its first value.  With a [str2dn] that
    takes DN strings only, a first result that has a member makes the call
    raise [TypeError], for every country and whatever the other results
    are: the search of the admin subtree is the only request sent, no login
    is extracted and no profile is looked up. *)
Theorem get_hr_by_country_member_list (country : string) (h : history)
    (group_dn m : string) (ms : list string) (e : entry)
    (rest : list (string * entry)) :
  strings_only str2dn ->
  answer_search (_conn self) h (admin_dn self) SCOPE_SUBTREE "(member=*)" None
  = Ok ((group_dn, e) :: rest) ->
  e !! "member" = Some (m :: ms) ->
  get_hr_by_country str2dn self country h
  = (Raise TypeError,
     h ++ [Search (admin_dn self) SCOPE_SUBTREE "(member=*)" None]).
Proof.
  intros Hstr Hres Hmem.
  unfold get_hr_by_country, _search_admin, search_s. munfold.
  rewrite Hres. simpl. munfold. unfold getitem. rewrite Hmem. simpl.
  unfold _extract_cn. munfold. now rewrite Hstr.
Qed.

End Wrapper.

(** *** Runs on the reference directory *)

Lemma jdoe_attrs_present (manager_dn a : string) :
  a ∈ profile_attrs (jdoe_directory manager_dn) ->
  exists x, jdoe_entry manager_dn !! a ≫= last = Some x.
Proof.
  intros Ha. unfold profile_attrs in Ha. simpl in Ha.
  repeat (apply elem_of_cons in Ha as [->|Ha]);
    [eexists; reflexivity.. | inversion Ha].
Qed.

Lemma jdoe_attrs_distinct (manager_dn : string) :
  NoDup (profile_attrs (jdoe_directory manager_dn)).
Proof. apply (bool_decide_unpack _). vm_compute. exact I. Qed.

Lemma rdns_not_empty_jdoe :
  Forall (fun r : rdn => r <> [])
    [[("cn", "jdoe", 1%Z)]; [("c", "fr", 1%Z)];
     [("dc", "example", 1%Z)]; [("dc", "com", 1%Z)]].
Proof. repeat constructor; discriminate. Qed.

Lemma rdns_not_empty_boss :
  Forall (fun r : rdn => r <> [])
    [[("cn", "boss", 1%Z)]; [("c", "fr", 1%Z)];
     [("dc", "example", 1%Z)]; [("dc", "com", 1%Z)]].
Proof. repeat constructor; discriminate. Qed.

(** C1 as stated fails: the filter sent for [jdoe] under the template
    [(cn=%s)] is not [(cn=jdoe)]. *)
Lemma search_user_by_login_jdoe_filter_sent :
  (search_user_by_login reference_str2dn empty_directory (Some "jdoe") []).2
  = [Search "dc=example,dc=com" SCOPE_SUBTREE "(cn=cn=*jdoe*)"
       (Some ["cn"; "mail"; "uid"; "givenName"; "sn"; "manager"])]
  /\ (search_user_by_login reference_str2dn empty_directory (Some "jdoe") []).2
     <> [Search "dc=example,dc=com" SCOPE_SUBTREE "(cn=jdoe)"
           (Some ["cn"; "mail"; "uid"; "givenName"; "sn"; "manager"])].
Proof. split; [reflexivity | discriminate]. Qed.

Lemma search_user_by_login_jdoe_witness :
  _filter empty_directory = "(cn=%s)"
  /\ (search_user_by_login reference_str2dn empty_directory (Some "jdoe") []).2
     = [] ++ [Search (_base empty_directory) SCOPE_SUBTREE "(cn=cn=*jdoe*)"
                (Some ["cn"; "mail"; "uid"; "givenName"; "sn"; "manager"])]
  /\ (answer_search (_conn empty_directory) [] (_base empty_directory)
        SCOPE_SUBTREE "(cn=cn=*jdoe*)"
        (Some ["cn"; "mail"; "uid"; "givenName"; "sn"; "manager"]) = Ok [] ->
      (search_user_by_login reference_str2dn empty_directory (Some "jdoe") []).1
      = Raise UnknownLdapUser).
Proof.
  split; [reflexivity|].
  exact (search_user_by_login_jdoe reference_str2dn empty_directory []
           eq_refl).
Defined.

Lemma update_user_no_entry_witness :
  update_user (fun _ _ => []) empty_directory "jdoe" "fr"
    {["mail" := ["john@example.com"]]} []
  = (Raise IndexError,
     [] ++ [Search (_base empty_directory) SCOPE_SUBTREE
              "(cn=cn=jdoe,c=fr,dc=example,dc=com)"
              (Some ["objectClass"; "employeeType"; "cn"; "givenName"; "sn";
                     "manager"; "mail"; "ou"; "uid"])]).
Proof.
  exact (update_user_no_entry empty_directory (fun _ _ => []) "jdoe" "fr"
           "(cn=cn=jdoe,c=fr,dc=example,dc=com)"
           {["mail" := ["john@example.com"]]} [] eq_refl eq_refl).
Defined.

(** C3 as stated fails: the entry has all six requested attributes, its
    manager DN has no RDN with the login attribute [cn], and the profile
    keeps the raw manager DN. *)
Lemma search_user_by_login_manager_raw_dn :
  (forall a, a ∈ required_fields ->
     exists x, jdoe_entry boss_uid_dn !! a ≫= last = Some x)
  /\ (search_user_by_login reference_str2dn (jdoe_directory boss_uid_dn)
        (Some "jdoe") []).1
     = Ok (Some {| email := "jdoe@example.com"; firstname := "John";
                   lastname := "Doe"; login := "jdoe";
                   manager := "uid=boss,c=fr,dc=example,dc=com";
                   dn := "cn=jdoe,c=fr,dc=example,dc=com";
                   country := Some "fr" |}).
Proof.
  split; [|vm_compute; reflexivity].
  intros a Ha. unfold required_fields in Ha.
  repeat (apply elem_of_cons in Ha as [->|Ha]);
    [eexists; reflexivity.. | inversion Ha].
Qed.

Lemma search_user_by_login_manager_witness :
  exists p,
    search_user_by_login reference_str2dn (jdoe_directory boss_dn)
      (Some "jdoe") []
    = (Ok (Some p),
       [] ++ [Search (_base (jdoe_directory boss_dn)) SCOPE_SUBTREE
                "(cn=cn=*jdoe*)" (Some required_fields)])
    /\ manager p = "boss"
    /\ manager p <> boss_dn.
Proof.
  exact (search_user_by_login_manager reference_str2dn (jdoe_directory boss_dn)
           (Some "jdoe") [] "(cn=cn=*jdoe*)" jdoe_dn boss_dn "boss"
           (jdoe_entry boss_dn) [] _ _
           reference_values_shorter eq_refl eq_refl
           ltac:(discriminate) (jdoe_attrs_distinct boss_dn)
           (jdoe_attrs_present boss_dn) eq_refl
           eq_refl rdns_not_empty_jdoe eq_refl rdns_not_empty_boss eq_refl).
Defined.



Example parse_ldap_entry_mail_absent :
  parse_ldap_entry reference_str2dn empty_directory jdoe_dn
    (delete "mail" (jdoe_entry boss_dn)) = Raise (KeyError "mail").
Proof. vm_compute. reflexivity. Qed.

Example parse_ldap_entry_empty :
  parse_ldap_entry reference_str2dn empty_directory jdoe_dn ∅ = Ok None.
Proof. reflexivity. Qed.

Lemma reference_strings_only : strings_only reference_str2dn.
Proof. intros m ms. reflexivity. Qed.

Lemma get_hr_by_country_member_list_witness :
  get_hr_by_country reference_str2dn hr_directory "fr" []
  = (Raise TypeError,
     [] ++ [Search (admin_dn hr_directory) SCOPE_SUBTREE "(member=*)" None]).
Proof.
  exact (get_hr_by_country_member_list reference_str2dn hr_directory "fr" []
           hr_group_dn jdoe_dn [] (hr_group [jdoe_dn]) []
           reference_strings_only eq_refl eq_refl).
Defined.

(** What the first member of the group resolves to when its DN is passed
    as a string, the way [parse_ldap_entry] passes the manager DN. *)
Example hr_first_member_as_string :
  _extract_cn reference_str2dn hr_directory (DnStr jdoe_dn) = Ok (Some "jdoe")
  /\ (search_user_by_login reference_str2dn hr_directory (Some "jdoe")
        [Search (admin_dn hr_directory) SCOPE_SUBTREE "(member=*)" None]).1
     = Ok (Some {| email := "jdoe@example.com"; firstname := "John";
                   lastname := "Doe"; login := "jdoe"; manager := "boss";
                   dn := "cn=jdoe,c=fr,dc=example,dc=com";
                   country := Some "fr" |}).
Proof. split; vm_compute; reflexivity. Qed.

(** The same directory through [get_hr_by_country], for two countries. *)
Example hr_directory_type_error :
  (get_hr_by_country reference_str2dn hr_directory "fr" []).1 = Raise TypeError
  /\ (get_hr_by_country reference_str2dn hr_directory "us" []).1
     = Raise TypeError.
Proof. split; vm_compute; reflexivity. Qed.

End LdapFacts.


(** ** Base64 and the salted hash *)

Module HashFacts.
Import Base64 Ldap.

Example sha1_abc :
  Sha1.hex (Sha1.digest (Sha1.sha1 "abc"))
  = "a9993e364706816aba3e25717850c26c9cd0d89d".
Proof. vm_compute. reflexivity. Qed.

Example sha1_empty :
  Sha1.hex (Sha1.digest (Sha1.sha1 ""))
  = "da39a3ee5e6b4b0d3255bfef95601890afd80709".
Proof. vm_compute. reflexivity. Qed.

Example sha1_two_blocks :
  Sha1.hex (Sha1.digest (Sha1.sha1
    "abcdbcdecdefdefgefghfghighijhijkijkljklmklmnlmnomnopnopq"))
  = "84983e441c3bd26ebaae4aa1f95129e5e54670f1".
Proof. vm_compute. reflexivity. Qed.

Example sha1_update :
  Sha1.digest (Sha1.update (Sha1.sha1 "The quick brown fox ")
                 "jumps over the lazy dog")
  = Sha1.digest (Sha1.sha1 "The quick brown fox jumps over the lazy dog").
Proof. reflexivity. Qed.

Example b64_padding :
  urlsafe_b64encode "any carnal pleas" = "YW55IGNhcm5hbCBwbGVhcw=="
  /\ urlsafe_b64encode "any carnal pleasu" = "YW55IGNhcm5hbCBwbGVhc3U="
  /\ urlsafe_b64encode "any carnal pleasur" = "YW55IGNhcm5hbCBwbGVhc3Vy".
Proof. repeat split; reflexivity. Qed.

Example hashPassword_secret :
  hashPassword "abcd" "secret" = "{SSHA}-RFhsab2AfzZ0VfEdyknXtUT06RhYmNk".
Proof. vm_compute. reflexivity. Qed.

Lemma enc_char_inv (n : N) :
  (n < 64)%N ->
  dec_char (enc_char n) = Some n /\ Ascii.eqb (enc_char n) pad = false.
Proof.
  intros H.
  assert (Hk : exists k, k < 64 /\ n = N.of_nat k).
  { exists (N.to_nat n). split; [lia | now rewrite N2Nat.id]. }
  destruct Hk as (k & Hk & ->). clear H.
  do 64 (destruct k as [|k]; [split; reflexivity|]). lia.
Qed.

Ltac nlia := zify; Z.to_euclidean_division_equations; lia.

Lemma sextets_bound (x y z : N) :
  (x < 256 -> y < 256 -> z < 256 ->
   x / 4 < 64 /\ (x mod 4) * 16 + y / 16 < 64
   /\ (y mod 16) * 4 + z / 64 < 64 /\ z mod 64 < 64)%N.
Proof. intros. repeat split; nlia. Qed.

Lemma octets_sextets (x y z : N) :
  (x < 256)%N -> (y < 256)%N -> (z < 256)%N ->
  octets (x / 4) ((x mod 4) * 16 + y / 16) ((y mod 16) * 4 + z / 64)
         (z mod 64)
  = (x, y, z).
Proof.
  intros Hx Hy Hz. unfold octets. f_equal; [f_equal|]; nlia.
Qed.

Lemma decode_full (p q r t : N) (rest : string) :
  (p < 64)%N -> (q < 64)%N -> (r < 64)%N -> (t < 64)%N ->
  urlsafe_b64decode
    (String (enc_char p) (String (enc_char q)
       (String (enc_char r) (String (enc_char t) rest))))
  = tail ← urlsafe_b64decode rest;
    Some (String (ascii_of_N (octets p q r t).1.1)
            (String (ascii_of_N (octets p q r t).1.2)
               (String (ascii_of_N (octets p q r t).2) tail))).
Proof.
  intros Hp Hq Hr Ht.
  destruct (enc_char_inv p Hp) as [Ep _], (enc_char_inv q Hq) as [Eq _],
    (enc_char_inv r Hr) as [Er _], (enc_char_inv t Ht) as [Et Nt].
  cbn [urlsafe_b64decode]. rewrite Ep, Eq, Nt, Er, Et. reflexivity.
Qed.

Lemma decode_two (p q r : N) :
  (p < 64)%N -> (q < 64)%N -> (r < 64)%N ->
  urlsafe_b64decode
    (String (enc_char p) (String (enc_char q)
       (String (enc_char r) (String pad ""))))
  = Some (String (ascii_of_N (octets p q r 0).1.1)
            (String (ascii_of_N (octets p q r 0).1.2) "")).
Proof.
  intros Hp Hq Hr.
  destruct (enc_char_inv p Hp) as [Ep _], (enc_char_inv q Hq) as [Eq _],
    (enc_char_inv r Hr) as [Er Nr].
  cbn [urlsafe_b64decode]. rewrite Ep, Eq, Nr, Er. reflexivity.
Qed.

Lemma decode_one (p q : N) :
  (p < 64)%N -> (q < 64)%N ->
  urlsafe_b64decode
    (String (enc_char p) (String (enc_char q) (String pad (String pad ""))))
  = Some (String (ascii_of_N (octets p q 0 0).1.1) "").
Proof.
  intros Hp Hq.
  destruct (enc_char_inv p Hp) as [Ep _], (enc_char_inv q Hq) as [Eq _].
  cbn [urlsafe_b64decode]. rewrite Ep, Eq. reflexivity.
Qed.

Lemma ascii_of_N_eq (a : ascii) (n : N) : n = N_of_ascii a -> ascii_of_N n = a.
Proof. intros ->. apply ascii_N_embedding. Qed.

Lemma b64_roundtrip_steps (s : string) :
  urlsafe_b64decode (urlsafe_b64encode s) = Some s
  /\ (forall a, urlsafe_b64decode (urlsafe_b64encode (String a s))
                = Some (String a s))
  /\ (forall a b, urlsafe_b64decode (urlsafe_b64encode (String a (String b s)))
                  = Some (String a (String b s))).
Proof.
  induction s as [|c s (IH0 & IH1 & IH2)].
  - split; [reflexivity|]. split.
    + intros a. pose proof (N_ascii_bounded a) as Ha.
      destruct (sextets_bound (N_of_ascii a) 0 0) as (Hp & Hq & _); [lia..|].
      cbn [urlsafe_b64encode sextets].
      rewrite decode_one by assumption.
      unfold octets. cbn [fst snd].
      do 2 f_equal. apply ascii_of_N_eq. nlia.
    + intros a b.
      pose proof (N_ascii_bounded a) as Ha. pose proof (N_ascii_bounded b) as Hb.
      destruct (sextets_bound (N_of_ascii a) (N_of_ascii b) 0)
        as (Hp & Hq & Hr & _); [lia..|].
      cbn [urlsafe_b64encode sextets].
      rewrite decode_two by assumption.
      unfold octets. cbn [fst snd].
      f_equal. f_equal; [|f_equal]; apply ascii_of_N_eq; nlia.
  - split; [exact (IH1 c)|]. split; [intros a; exact (IH2 a c)|].
    intros a b.
    pose proof (N_ascii_bounded a) as Ha. pose proof (N_ascii_bounded b) as Hb.
    pose proof (N_ascii_bounded c) as Hc.
    destruct (sextets_bound (N_of_ascii a) (N_of_ascii b) (N_of_ascii c))
      as (Hp & Hq & Hr & Ht); [lia..|].
    cbn [urlsafe_b64encode sextets].
    rewrite decode_full by assumption. rewrite IH0. simpl mbind.
    unfold octets. cbn [fst snd mbind option_bind].
    f_equal. f_equal; [|f_equal; [|f_equal]]; apply ascii_of_N_eq; nlia.
Qed.

Theorem b64_roundtrip (s : string) :
  urlsafe_b64decode (urlsafe_b64encode s) = Some s.
Proof. apply b64_roundtrip_steps. Qed.

Lemma substring_all (s : string) : substring 0 (String.length s) s = s.
Proof. induction s as [|c s IH]; simpl; [reflexivity | now rewrite IH]. Qed.

Lemma substring_append_l (a b : string) :
  substring 0 (String.length a) (a +:+ b) = a.
Proof.
  induction a as [|c a IH]; simpl; [now destruct b | now rewrite IH].
Qed.

Lemma substring_append_r (a b : string) :
  substring (String.length a) (String.length b) (a +:+ b) = b.
Proof. induction a as [|c a IH]; simpl; [apply substring_all | exact IH]. Qed.

Lemma strip_scheme_tag (body : string) :
  strip_scheme ("{SSHA}" +:+ body) = Some body.
Proof.
  unfold strip_scheme.
  assert (Hp : String.prefix "{SSHA}" ("{SSHA}" +:+ body) = true).
  { simpl. now destruct body. }
  rewrite Hp. f_equal.
  change ("{SSHA}" +:+ body) with (String "{" (String "S" (String "S" (String "H" (String "A" (String "}" body)))))).
  cbn [String.length]. 
  replace (S (S (S (S (S (S (String.length body)))))) - 6) with (String.length body) by lia.
  cbn [substring]. apply substring_all.
Qed.

Lemma split_salt_append (d salt : string) :
  String.length salt = 4 -> split_salt (d +:+ salt) = (d, salt).
Proof.
  intros H. unfold split_salt. rewrite PyFacts.length_append, H.
  replace (String.length d + 4 - 4) with (String.length d) by lia.
  rewrite substring_append_l. f_equal.
  rewrite <- H. apply substring_append_r.
Qed.

(** C4.  For every password and every salt of four bytes, the credential
    of [hashPassword] is the tag [{SSHA}] followed by the URL-safe base64
    encoding of the SHA-1 digest of password and salt, followed by the
    salt; decoding it and splitting off the trailing four bytes gives the
    salt back, and hashing the password with that salt reproduces the
    embedded digest. *)
Theorem hashPassword_roundtrip (password salt : string) :
  String.length salt = 4 ->
  hashPassword salt password
  = "{SSHA}" +:+ urlsafe_b64encode
                   (Sha1.digest (Sha1.sha1 (password +:+ salt)) +:+ salt)
  /\ (exists blob d s,
        strip_scheme (hashPassword salt password) ≫= urlsafe_b64decode
        = Some blob
        /\ split_salt blob = (d, s)
        /\ s = salt
        /\ Sha1.digest (Sha1.sha1 (password +:+ s)) = d)
  /\ check_ssha password (hashPassword salt password) = true.
Proof.
  intros Hsalt.
  assert (Hform : hashPassword salt password
    = "{SSHA}" +:+ urlsafe_b64encode
        (Sha1.digest (Sha1.sha1 (password +:+ salt)) +:+ salt)) by reflexivity.
  assert (Hblob : strip_scheme (hashPassword salt password) ≫= urlsafe_b64decode
    = Some (Sha1.digest (Sha1.sha1 (password +:+ salt)) +:+ salt)).
  { rewrite Hform, strip_scheme_tag. simpl. apply b64_roundtrip. }
  split; [exact Hform|]. split.
  - eexists _, _, _. split; [exact Hblob|].
    split; [apply split_salt_append, Hsalt|]. split; reflexivity.
  - unfold check_ssha. rewrite Hblob, (split_salt_append _ _ Hsalt).
    apply bool_decide_eq_true. reflexivity.
Qed.

Lemma hashPassword_roundtrip_witness :
  String.length "abcd" = 4
  /\ hashPassword "abcd" "secret"
     = "{SSHA}" +:+ urlsafe_b64encode
                      (Sha1.digest (Sha1.sha1 ("secret" +:+ "abcd")) +:+ "abcd")
  /\ (exists blob d s,
        strip_scheme (hashPassword "abcd" "secret") ≫= urlsafe_b64decode
        = Some blob
        /\ split_salt blob = (d, s)
        /\ s = "abcd"
        /\ Sha1.digest (Sha1.sha1 ("secret" +:+ s)) = d)
  /\ check_ssha "secret" (hashPassword "abcd" "secret") = true.
Proof.
  split; [reflexivity|]. exact (hashPassword_roundtrip "secret" "abcd" eq_refl).
Defined.

Example check_ssha_wrong_password :
  check_ssha "secreu" (hashPassword "abcd" "secret") = false.
Proof. vm_compute. reflexivity. Qed.

End HashFacts.

(** ** The view layer *)

Module ViewFacts.
Import Views.

(** *** [parse_form] and [update_model] *)










(** *** The create and edit flows *)

Section Dispatch.

Variable env : Env.

Lemma on_session_calls {A} (m : M Session A) (w : World) :
  calls (on_session m w).2 = calls w.
Proof. unfold on_session. now destruct (m (session w)). Qed.











(** C6, amended.  In the edit flow, for a request without the marker
    [form.cancelled] (with or without [form.submitted]) whose path
    identifier is an integer that no stored model has, [render] raises, and
    so does the dispatch: no payload is returned and nothing is flushed.
    (With [form.cancelled] the flow redirects before it loads the model.) *)
Theorem edit_unknown_identifier (self : ViewBase) (c : Crud) (w : World)
    (key : string) (ident : Z) :
  has_key "form.cancelled" (params (request self)) = false ->
  matchdict (request self) !! matchdict_key c = Some key ->
  int key = Ok ident ->
  store (session w) !! ident = None ->
  let w' := {| session := session w; calls := calls w ++ [get_model_called] |} in
  EditView_render env self c w = (Raise (LookupFailure ident), w')
  /\ __call__ env (EditView_class env self c) w
     = (Raise (LookupFailure ident), w').
Proof.
  intros Hc Hkey Hint Hstore w'.
  assert (Hr : EditView_render env self c w = (Raise (LookupFailure ident), w')).
  { unfold EditView_render, render_with. rewrite Hc.
    unfold EditView_get_model, record, getitem, load, by_id. munfold. simpl.
    rewrite Hkey. simpl. rewrite Hint. simpl. now rewrite Hstore. }
  split; [exact Hr|].
  unfold __call__. simpl. rewrite Hr. reflexivity.
Qed.

(** C8.  When [render] or [update_response] raises, [__call__] goes from
    the failing step straight to its [except] clause, whatever the error
    hook is: its own [session.flush()] is not run.  The world it ends in is
    the one the failing step left, changed by the error hook alone, so
    with a hook that records no call the trace is the trace of the failing
    step; and with the default hook the exception propagates to the
    caller. *)
Theorem call_aborts_commit (v : ViewClass) (w w1 : World) (e : exn)
    (bound : option Response) :
  (render v w = (Raise e, w1) /\ bound = None
   \/ exists response response' w0,
        render v w = (Ok response, w0)
        /\ update_response v response w0 = (Raise e, response', w1)
        /\ bound = Some response') ->
  __call__ env v w = handle v bound e w1
  /\ (__call__ env v w).2
     = (if is_Exception e then (on_error v e w1).2 else w1)
  /\ ((forall x w', calls (on_error v x w').2 = calls w') ->
      calls (__call__ env v w).2 = calls w1)
  /\ (on_error v = ViewBase_on_error -> __call__ env v w = (Raise e, w1)).
Proof.
  intros H.
  assert (Hcall : __call__ env v w = handle v bound e w1).
  { unfold __call__.
    destruct H as [[Hr ->]|(response & response' & w0 & Hr & Hu & ->)].
    - now rewrite Hr.
    - now rewrite Hr, Hu. }
  assert (Hw : (handle v bound e w1).2
               = if is_Exception e then (on_error v e w1).2 else w1).
  { unfold handle. destruct (is_Exception e); [|reflexivity]. munfold.
    destruct (on_error v e w1) as [[[|]|x] w2]; simpl; try reflexivity.
    destruct bound; reflexivity. }
  rewrite Hcall. split; [reflexivity|]. split; [exact Hw|]. split.
  - intros Hquiet. rewrite Hw.
    destruct (is_Exception e); [apply Hquiet | reflexivity].
  - intros Herr. unfold handle. rewrite Herr.
    now destruct (is_Exception e).
Qed.

End Dispatch.

(** *** Runs of the sample views *)


Example create_model_error_shown :
  CreateView_render plain_env
    (anonymous [("form.submitted", "1"); ("user.login", "bob")] ∅)
    (user_view taken) fresh
  = (Ok (Payload
           (<["csrf_token" := VToken "token"]>
              (<["user" := VModel {["login" := "bob"]}]>
                 (<["errors" := VErrors ["login already used"]]> ∅)))),
     {| session := session fresh;
        calls := [get_model_called; validated []; update_model_called;
                  model_validate_called; update_view_called] |}).
Proof. vm_compute. reflexivity. Qed.

Example create_saved :
  CreateView_render plain_env
    (anonymous [("form.submitted", "1"); ("user.login", "bob")] ∅)
    (user_view (fun _ => mret tt)) fresh
  = (Ok (HTTPFound "/list_user"),
     {| session := {| store := ∅; added := [{["login" := "bob"]}];
                      deleted := [] |};
        calls := [get_model_called; validated []; update_model_called;
                  model_validate_called; save_model_called;
                  redirect_called] |}).
Proof. vm_compute. reflexivity. Qed.

Example create_cancelled :
  CreateView_render plain_env
    (anonymous [("form.cancelled", "1"); ("form.submitted", "1")] ∅)
    (user_view (fun _ => mret tt)) fresh
  = (Ok (HTTPFound "/list_user"),
     {| session := session fresh; calls := [redirect_called] |}).
Proof. vm_compute. reflexivity. Qed.

(** C6 as stated fails: the identifier 42 is not in the store, the
    submission carries [form.cancelled], and the dispatch returns a
    redirect and flushes. *)
Lemma edit_cancelled_unknown_identifier :
  store (session fresh) !! 42%Z = None
  /\ __call__ plain_env
       (EditView_class plain_env
          (anonymous [("form.cancelled", "1")] {["user_id" := "42"]})
          (user_view (fun _ => mret tt))) fresh
     = (Ok (HTTPFound "/list_user"),
        {| session := session fresh;
           calls := [redirect_called; flush_called] |}).
Proof. split; [reflexivity | vm_compute; reflexivity]. Qed.

Lemma edit_unknown_identifier_witness :
  let self := anonymous [("form.submitted", "1")] {["user_id" := "42"]} in
  let c := user_view (fun _ => mret tt) in
  let w' := {| session := session fresh;
               calls := calls fresh ++ [get_model_called] |} in
  EditView_render plain_env self c fresh = (Raise (LookupFailure 42), w')
  /\ __call__ plain_env (EditView_class plain_env self c) fresh
     = (Raise (LookupFailure 42), w').
Proof.
  exact (edit_unknown_identifier plain_env
           (anonymous [("form.submitted", "1")] {["user_id" := "42"]})
           (user_view (fun _ => mret tt)) fresh "42" 42%Z
           eq_refl eq_refl eq_refl eq_refl).
Defined.

Lemma call_aborts_commit_witness :
  let v := EditView_class plain_env
             (anonymous [] {["user_id" := "42"]})
             (user_view (fun _ => mret tt)) in
  let w1 := {| session := session fresh; calls := [get_model_called] |} in
  let e := LookupFailure 42 in
  __call__ plain_env v fresh = handle v None e w1
  /\ (__call__ plain_env v fresh).2
     = (if is_Exception e then (on_error v e w1).2 else w1)
  /\ ((forall x w', calls (on_error v x w').2 = calls w') ->
      calls (__call__ plain_env v fresh).2 = calls w1)
  /\ (on_error v = ViewBase_on_error ->
      __call__ plain_env v fresh = (Raise e, w1)).
Proof.
  exact (call_aborts_commit plain_env
           (EditView_class plain_env (anonymous [] {["user_id" := "42"]})
              (user_view (fun _ => mret tt)))
           fresh
           {| session := session fresh; calls := [get_model_called] |}
           (LookupFailure 42) None (or_introl (conj eq_refl eq_refl))).
Defined.

(** The identifier 42 is unknown: the dispatch of the edit view raises the
    lookup failure and the trace has no flush. *)
Example edit_unknown_no_flush :
  __call__ plain_env
    (EditView_class plain_env (anonymous [] {["user_id" := "42"]})
       (user_view (fun _ => mret tt))) fresh
  = (Raise (LookupFailure 42),
     {| session := session fresh; calls := [get_model_called] |}).
Proof. vm_compute. reflexivity. Qed.

(** A hook that asks not to re-raise: the dispatch ends in the world the
    failing [render] left, and the trace has no flush. *)
Example quiet_hook_no_flush :
  __call__ plain_env
    {| render := raise (OtherException "boom");
       update_response := ViewBase_update_response;
       on_error := fun _ => mret false |} fresh
  = (Raise UnboundLocalError, fresh).
Proof. vm_compute. reflexivity. Qed.

(** A hook that flushes the session itself: the one flush of the trace is
    the hook's, made in the [except] clause. *)
Example flushing_hook_trace :
  let v := flushing_class plain_env (raise (OtherException "boom")) in
  __call__ plain_env v fresh = handle v None (OtherException "boom") fresh
  /\ on_error v (OtherException "boom") fresh
     = (Ok true, {| session := session fresh; calls := [flush_called] |})
  /\ __call__ plain_env v fresh
     = (Raise (OtherException "boom"),
        {| session := session fresh; calls := [flush_called] |}).
Proof. repeat split. Qed.


End ViewFacts.

(** ** The rest of the LDAP helper *)

Module LdapMoreFacts.
Import Ldap LdapMore LdapFacts Base64 HashFacts.

(** *** authenticate, parse_ldap_entry and update_user *)

Section More.

Variable str2dn : dn_arg -> Res parsed_dn.
Variable self : LdapWrapper.

Lemma search_user_by_login_steps (login : string) (h : history) (what : string) :
  format (_filter self) ["cn=*" +:+ login +:+ "*"] = Ok what ->
  search_user_by_login str2dn self (Some login) h
  = (match answer_search (_conn self) h (_base self) SCOPE_SUBTREE what
             (Some required_fields) with
     | Ok [] => Raise UnknownLdapUser
     | Ok ((user_dn, e) :: _) => parse_ldap_entry str2dn self user_dn e
     | Raise x => Raise x
     end,
     h ++ [Search (_base self) SCOPE_SUBTREE what (Some required_fields)]).
Proof.
  intros Hwhat. unfold search_user_by_login.
  rewrite PyFacts.format_login. munfold. unfold _search_by_item. munfold.
  simpl str_of. rewrite Hwhat. unfold _search, search_s.
  destruct (answer_search _ h _ _ _ _) as [[|[d e] rest]|x]; reflexivity.
Qed.

(** X1.  When the search for a login returns no entry, [authenticate]
    raises [UnknownLdapUser] and the only request sent is the search: no
    bind is attempted, so the password never reaches the directory. *)
Theorem authenticate_unknown_user (login password what : string) (h : history) :
  format (_filter self) ["cn=*" +:+ login +:+ "*"] = Ok what ->
  answer_search (_conn self) h (_base self) SCOPE_SUBTREE what
    (Some required_fields) = Ok [] ->
  authenticate str2dn self login password h
  = (Raise UnknownLdapUser,
     h ++ [Search (_base self) SCOPE_SUBTREE what (Some required_fields)]).
Proof.
  intros Hwhat Hres. unfold authenticate. munfold.
  rewrite (search_user_by_login_steps login h what Hwhat), Hres. reflexivity.
Qed.

(** X2.  When the search returns an entry that decodes to a profile,
    [authenticate] sends exactly the search and then one bind, with the DN
    the directory returned and the supplied password; it returns the
    profile when the bind is accepted and raises the error of the bind
    otherwise. *)
Theorem authenticate_binds_found_dn (login password what user_dn m : string)
    (e : entry) (rest : list (string * entry)) (udn mdn : parsed_dn)
    (h : history) :
  format (_filter self) ["cn=*" +:+ login +:+ "*"] = Ok what ->
  answer_search (_conn self) h (_base self) SCOPE_SUBTREE what
    (Some required_fields) = Ok ((user_dn, e) :: rest) ->
  user_dn <> "" ->
  NoDup (profile_attrs self) ->
  (forall a, a ∈ profile_attrs self -> exists x, e !! a ≫= last = Some x) ->
  e !! manager_attr self ≫= last = Some m ->
  str2dn (DnStr user_dn) = Ok udn -> Forall (fun r => r <> []) udn ->
  str2dn (DnStr m) = Ok mdn -> Forall (fun r => r <> []) mdn ->
  let h1 := h ++ [Search (_base self) SCOPE_SUBTREE what (Some required_fields)] in
  exists p,
    parse_ldap_entry str2dn self user_dn e = Ok (Some p)
    /\ dn p = user_dn
    /\ authenticate str2dn self login password h
       = (match answer_bind (_conn self) h1 user_dn password with
          | Ok _ => Ok (Some p)
          | Raise x => Raise x
          end,
          h1 ++ [Bind user_dn password]).
Proof.
  intros Hwhat Hres Hdn Hnd Hall Hm Hu Hfu Hmd Hfm h1.
  destruct (parse_ldap_entry_profile str2dn self user_dn m e udn mdn Hdn Hnd
              Hall Hm Hu Hfu Hmd Hfm) as (p & Hp & _ & Hpdn & _).
  exists p. split; [exact Hp|]. split; [exact Hpdn|].
  unfold authenticate. munfold.
  rewrite (search_user_by_login_steps login h what Hwhat), Hres, Hp.
  unfold _bind, simple_bind_s. rewrite Hpdn. fold h1.
  destruct (answer_bind _ h1 user_dn password) as [[]|x]; reflexivity.
Qed.

(** X3.  When the first search result has an empty DN or an empty entry,
    [parse_ldap_entry] gives [None]; [authenticate] then fails with
    [TypeError] on [user_data['dn']] and sends no bind. *)
Theorem authenticate_empty_result (login password what user_dn : string)
    (e : entry) (rest : list (string * entry)) (h : history) :
  format (_filter self) ["cn=*" +:+ login +:+ "*"] = Ok what ->
  answer_search (_conn self) h (_base self) SCOPE_SUBTREE what
    (Some required_fields) = Ok ((user_dn, e) :: rest) ->
  user_dn = "" \/ e = ∅ ->
  authenticate str2dn self login password h
  = (Raise TypeError,
     h ++ [Search (_base self) SCOPE_SUBTREE what (Some required_fields)]).
Proof.
  intros Hwhat Hres Hempty. unfold authenticate. munfold.
  rewrite (search_user_by_login_steps login h what Hwhat), Hres.
  unfold parse_ldap_entry.
  assert (Hb : bool_decide (user_dn = "") || bool_decide (e = ∅) = true).
  { destruct Hempty as [->| ->].
    - reflexivity.
    - rewrite (bool_decide_eq_true_2 (∅ = ∅)) by reflexivity.
      apply orb_true_r. }
  rewrite Hb. reflexivity.
Qed.

(** X4.  [parse_ldap_entry] returns [None] exactly when the DN or the
    entry is empty; in every other case it returns a profile or raises. *)
Theorem parse_ldap_entry_None_iff (user_dn : string) (e : entry) :
  parse_ldap_entry str2dn self user_dn e = Ok None
  <-> (user_dn = "" \/ e = ∅).
Proof.
  unfold parse_ldap_entry. split.
  - intros H.
    destruct (bool_decide (user_dn = "")) eqn:Bd;
      [left; now apply bool_decide_eq_true in Bd|].
    destruct (bool_decide (e = ∅)) eqn:Be;
      [right; now apply bool_decide_eq_true in Be|].
    exfalso. simpl in H.
    repeat match type of H with
    | context [pop_attr ?m ?a] =>
        destruct (pop_attr m a) as [[? ?]|?]; simpl in H; [|discriminate]
    end.
    destruct (_extract_country _ _ _) as [?|?]; simpl in H; [|discriminate].
    destruct (str2dn _) as [?|?]; simpl in H; [|discriminate].
    destruct (manager_loop _ _ _) as [?|?]; simpl in H; discriminate.
  - intros [->| ->].
    + reflexivity.
    + rewrite (bool_decide_eq_true_2 (∅ = ∅)) by reflexivity.
      now rewrite orb_true_r.
Qed.

(** X5.  The values are taken with [pop], which shortens the list held by
    the entry: when the configuration reads mail and first name from the
    same attribute and that attribute has a single value, the second [pop]
    finds the list empty and [parse_ldap_entry] raises [IndexError]. *)
Theorem parse_ldap_entry_shared_attribute (user_dn v : string) (e : entry) :
  user_dn <> "" ->
  mail_attr self = firstname_attr self ->
  e !! mail_attr self = Some [v] ->
  parse_ldap_entry str2dn self user_dn e = Raise IndexError.
Proof.
  intros Hdn Hsame He.
  assert (Hne : e <> ∅) by (intros ->; rewrite lookup_empty in He; discriminate).
  unfold parse_ldap_entry.
  rewrite (bool_decide_eq_false_2 _ Hdn), (bool_decide_eq_false_2 _ Hne).
  simpl. rewrite (pop_attr_Ok e _ v [v] He eq_refl). simpl.
  rewrite <- Hsame. unfold pop_attr, getitem. rewrite lookup_insert_eq.
  reflexivity.
Qed.


Lemma collect_old_Ok (e : entry) (l : list (string * list string)) (old : entry) :
  (forall k, k ∈ l.*1 -> is_Some (e !! k)) ->
  exists old',
    collect_old e l old = Ok old'
    /\ forall k, old' !! k = if decide (k ∈ l.*1) then e !! k else old !! k.
Proof.
  revert old. induction l as [|[f vs] l IH]; intros old Hall; simpl.
  - exists old. split; [reflexivity|]. intros k.
    destruct (decide (k ∈ [])) as [Hin|_]; [inversion Hin | reflexivity].
  - destruct (Hall f) as [v Hv]; [left|].
    unfold getitem. rewrite Hv. simpl.
    destruct (IH (<[f := v]> old)) as (old' & Hc & Hl).
    { intros k Hk. apply Hall. now right. }
    exists old'. split; [exact Hc|]. intros k. rewrite Hl.
    destruct (decide (k ∈ l.*1)) as [Hin|Hnin].
    + rewrite decide_True by now right. reflexivity.
    + destruct (decide (k = f)) as [->|Hne].
      * rewrite decide_True by left. now rewrite lookup_insert_eq.
      * rewrite lookup_insert_ne by congruence.
        rewrite decide_False; [reflexivity|].
        intros Hin. apply elem_of_cons in Hin as [?|?]; contradiction.
Qed.

Lemma collect_old_missing (e : entry) (l : list (string * list string))
    (old : entry) (k : string) :
  k ∈ l.*1 -> e !! k = None ->
  exists k', k' ∈ l.*1 /\ e !! k' = None
             /\ collect_old e l old = Raise (KeyError k').
Proof.
  revert old. induction l as [|[f vs] l IH]; intros old Hin Hk; simpl.
  - inversion Hin.
  - unfold getitem. destruct (e !! f) as [v|] eqn:Hf; simpl.
    + apply elem_of_cons in Hin as [->|Hin]; [simpl in Hk; congruence|].
      destruct (IH (<[f := v]> old) Hin Hk) as (k' & Hk' & Hnone & Hc).
      exists k'. split; [now right|]. split; assumption.
    + exists f. split; [left|]. split; [exact Hf | reflexivity].
Qed.

Lemma fields_keys (fields : entry) (k : string) :
  k ∈ (map_to_list fields).*1 <-> is_Some (fields !! k).
Proof.
  rewrite list_elem_of_fmap. split.
  - intros ([k' v] & -> & Hin). apply elem_of_map_to_list in Hin. eauto.
  - intros [v Hv]. exists (k, v). split; [reflexivity|].
    now apply elem_of_map_to_list.
Qed.

(** X8.  When the entry is found and has every attribute named in
    [fields], [update_user] sends the search and then one modify request.
    The request is addressed to the DN rebuilt from login, country and base
    DN (not to the DN the search returned), and its modify-list is computed
    from the current values of exactly the attributes named in [fields]
    and the requested values. *)
Theorem update_user_modifies (modifyModlist : entry -> entry -> modlist)
    (login country what user_dn : string) (fields e : entry)
    (rest : list (string * entry)) (h : history) :
  let target := "cn=" +:+ login +:+ ",c=" +:+ country +:+ "," +:+ _base self in
  let attrs := Some ["objectClass"; "employeeType"; "cn"; "givenName"; "sn";
                     "manager"; "mail"; "ou"; "uid"] in
  let h1 := h ++ [Search (_base self) SCOPE_SUBTREE what attrs] in
  format (_filter self) [target] = Ok what ->
  answer_search (_conn self) h (_base self) SCOPE_SUBTREE what attrs
  = Ok ((user_dn, e) :: rest) ->
  (forall k, is_Some (fields !! k) -> is_Some (e !! k)) ->
  exists old : entry,
    (forall k, old !! k = match fields !! k with
                          | Some _ => e !! k
                          | None => None
                          end)
    /\ update_user modifyModlist self login country fields h
       = (answer_modify (_conn self) h1 target (modifyModlist old fields),
          h1 ++ [Modify target (modifyModlist old fields)]).
Proof.
  intros target attrs h1 Hwhat Hres Hall.
  destruct (collect_old_Ok e (map_to_list fields) ∅) as (old & Hc & Hl).
  { intros k Hk. apply Hall. now apply fields_keys. }
  exists old. split.
  - intros k. rewrite Hl.
    destruct (decide (k ∈ (map_to_list fields).*1)) as [Hin|Hnin].
    + apply fields_keys in Hin as [v ->]. reflexivity.
    + rewrite lookup_empty. destruct (fields !! k) as [v|] eqn:Hf; [|reflexivity].
      exfalso. apply Hnin, fields_keys. eauto.
  - unfold update_user. rewrite update_user_dn. munfold. fold target.
    rewrite Hwhat. unfold _search, search_s. fold attrs. rewrite Hres.
    simpl. rewrite Hc. reflexivity.
Qed.

(** X9.  When [fields] names an attribute the current entry does not
    have, [update_user] raises [KeyError] for such an attribute and sends
    no modify request: it cannot add an attribute to an entry. *)
Theorem update_user_missing_field (modifyModlist : entry -> entry -> modlist)
    (login country what user_dn k : string) (fields e : entry)
    (rest : list (string * entry)) (h : history) :
  let target := "cn=" +:+ login +:+ ",c=" +:+ country +:+ "," +:+ _base self in
  let attrs := Some ["objectClass"; "employeeType"; "cn"; "givenName"; "sn";
                     "manager"; "mail"; "ou"; "uid"] in
  format (_filter self) [target] = Ok what ->
  answer_search (_conn self) h (_base self) SCOPE_SUBTREE what attrs
  = Ok ((user_dn, e) :: rest) ->
  is_Some (fields !! k) -> e !! k = None ->
  exists k',
    is_Some (fields !! k') /\ e !! k' = None
    /\ update_user modifyModlist self login country fields h
       = (Raise (KeyError k'),
          h ++ [Search (_base self) SCOPE_SUBTREE what attrs]).
Proof.
  intros target attrs Hwhat Hres Hk He.
  destruct (collect_old_missing e (map_to_list fields) ∅ k) as (k' & Hk' & Hn & Hc);
    [now apply fields_keys | exact He |].
  exists k'. split; [now apply fields_keys|]. split; [exact Hn|].
  unfold update_user. rewrite update_user_dn. munfold. fold target.
  rewrite Hwhat. unfold _search, search_s. fold attrs. rewrite Hres.
  simpl. rewrite Hc. reflexivity.
Qed.

(** X7.  [_extract_cn] and [_extract_country] return the value of the
    first RDN whose leading assertion has the configured login, respectively
    country, attribute, and [None] when no RDN leads with it; later
    assertions of a multi-valued RDN are not examined. *)
Theorem extract_first_match (d : dn_arg) (rdns : parsed_dn) :
  str2dn d = Ok rdns -> Forall (fun r => r <> []) rdns ->
  _extract_cn str2dn self d = Ok (head (values_of (login_attr self) rdns))
  /\ _extract_country str2dn self d
     = Ok (head (values_of (country_attr self) rdns)).
Proof.
  intros Hd Hf. unfold _extract_cn, _extract_country. rewrite Hd. simpl.
  split; apply first_rdn_value_head; exact Hf.
Qed.

(** X6.  For an entry with a value for each of the five configured
    attributes (pairwise distinct names), the profile holds the last value
    of the mail, first name, last name and login attributes, the DN of the
    search result, and as country the value of the first RDN of that DN
    whose leading attribute is the country attribute ([None] without one). *)
Theorem parse_ldap_entry_fields (user_dn m : string) (e : entry)
    (udn mdn : parsed_dn) :
  user_dn <> "" ->
  NoDup (profile_attrs self) ->
  (forall a, a ∈ profile_attrs self -> exists v, e !! a ≫= last = Some v) ->
  e !! manager_attr self ≫= last = Some m ->
  str2dn (DnStr user_dn) = Ok udn -> Forall (fun r => r <> []) udn ->
  str2dn (DnStr m) = Ok mdn -> Forall (fun r => r <> []) mdn ->
  exists p,
    parse_ldap_entry str2dn self user_dn e = Ok (Some p)
    /\ e !! mail_attr self ≫= last = Some (email p)
    /\ e !! firstname_attr self ≫= last = Some (firstname p)
    /\ e !! lastname_attr self ≫= last = Some (lastname p)
    /\ e !! login_attr self ≫= last = Some (login p)
    /\ dn p = user_dn
    /\ country p = head (values_of (country_attr self) udn).
Proof.
  intros Hdn Hnd Hall Hm Hu Hfu Hmd Hfm.
  destruct (parse_ldap_entry_profile str2dn self user_dn m e udn mdn Hdn Hnd
              Hall Hm Hu Hfu Hmd Hfm)
    as (p & Hp & _ & Hpdn & Hc & H1 & H2 & H3 & H4).
  exists p. tauto.
Qed.

End More.

(** *** Runs on the reference directory *)

Lemma authenticate_unknown_user_witness :
  authenticate reference_str2dn empty_directory "jdoe" "pw" []
  = (Raise UnknownLdapUser,
     [] ++ [Search (_base empty_directory) SCOPE_SUBTREE "(cn=cn=*jdoe*)"
              (Some required_fields)]).
Proof.
  exact (authenticate_unknown_user reference_str2dn empty_directory
           "jdoe" "pw" "(cn=cn=*jdoe*)" [] eq_refl eq_refl).
Defined.

Lemma authenticate_binds_found_dn_witness :
  let self := jdoe_directory boss_dn in
  let h1 := [] ++ [Search (_base self) SCOPE_SUBTREE "(cn=cn=*jdoe*)"
                     (Some required_fields)] in
  exists p,
    parse_ldap_entry reference_str2dn self jdoe_dn (jdoe_entry boss_dn)
    = Ok (Some p)
    /\ dn p = jdoe_dn
    /\ authenticate reference_str2dn self "jdoe" "pw" []
       = (match answer_bind (_conn self) h1 jdoe_dn "pw" with
          | Ok _ => Ok (Some p)
          | Raise x => Raise x
          end,
          h1 ++ [Bind jdoe_dn "pw"]).
Proof.
  exact (authenticate_binds_found_dn reference_str2dn (jdoe_directory boss_dn)
           "jdoe" "pw" "(cn=cn=*jdoe*)" jdoe_dn boss_dn (jdoe_entry boss_dn)
           [] _ _ [] eq_refl eq_refl ltac:(discriminate)
           (jdoe_attrs_distinct boss_dn) (jdoe_attrs_present boss_dn)
           eq_refl eq_refl rdns_not_empty_jdoe eq_refl rdns_not_empty_boss).
Defined.

Example authenticate_requests :
  authenticate reference_str2dn (jdoe_directory boss_dn) "jdoe" "pw" []
  = (Ok (Some {| email := "jdoe@example.com"; firstname := "John";
                 lastname := "Doe"; login := "jdoe"; manager := "boss";
                 dn := "cn=jdoe,c=fr,dc=example,dc=com";
                 country := Some "fr" |}),
     [Search "dc=example,dc=com" SCOPE_SUBTREE "(cn=cn=*jdoe*)"
        (Some required_fields);
      Bind "cn=jdoe,c=fr,dc=example,dc=com" "pw"]).
Proof. vm_compute. reflexivity. Qed.

Lemma authenticate_empty_result_witness :
  authenticate reference_str2dn nameless_directory "jdoe" "pw" []
  = (Raise TypeError,
     [] ++ [Search (_base nameless_directory) SCOPE_SUBTREE "(cn=cn=*jdoe*)"
              (Some required_fields)]).
Proof.
  exact (authenticate_empty_result reference_str2dn nameless_directory
           "jdoe" "pw" "(cn=cn=*jdoe*)" "" (jdoe_entry boss_dn) [] []
           eq_refl eq_refl (or_introl eq_refl)).
Defined.

Lemma parse_ldap_entry_shared_attribute_witness :
  parse_ldap_entry reference_str2dn shared_wrapper jdoe_dn
    (jdoe_entry boss_dn) = Raise IndexError.
Proof.
  exact (parse_ldap_entry_shared_attribute reference_str2dn shared_wrapper
           jdoe_dn "jdoe" (jdoe_entry boss_dn) ltac:(discriminate)
           eq_refl eq_refl).
Defined.

Lemma parse_ldap_entry_fields_witness :
  let self := jdoe_directory boss_dn in
  let e := jdoe_entry boss_dn in
  exists p,
    parse_ldap_entry reference_str2dn self jdoe_dn e = Ok (Some p)
    /\ e !! mail_attr self ≫= last = Some (email p)
    /\ e !! firstname_attr self ≫= last = Some (firstname p)
    /\ e !! lastname_attr self ≫= last = Some (lastname p)
    /\ e !! login_attr self ≫= last = Some (login p)
    /\ dn p = jdoe_dn
    /\ country p
       = head (values_of (country_attr self)
                 [[("cn", "jdoe", 1%Z)]; [("c", "fr", 1%Z)];
                  [("dc", "example", 1%Z)]; [("dc", "com", 1%Z)]]).
Proof.
  exact (parse_ldap_entry_fields reference_str2dn (jdoe_directory boss_dn)
           jdoe_dn boss_dn (jdoe_entry boss_dn) _ _ ltac:(discriminate)
           (jdoe_attrs_distinct boss_dn) (jdoe_attrs_present boss_dn)
           eq_refl eq_refl rdns_not_empty_jdoe eq_refl rdns_not_empty_boss).
Defined.

Lemma rdns_not_empty_twice :
  Forall (fun r : rdn => r <> [])
    [[("cn", "first", 1%Z); ("c", "be", 1%Z)]; [("cn", "second", 1%Z)];
     [("c", "fr", 1%Z)]].
Proof. repeat constructor; discriminate. Qed.

Lemma extract_first_match_witness :
  _extract_cn reference_str2dn empty_directory
    (DnStr "cn=first+c=be,cn=second,c=fr") = Ok (Some "first")
  /\ _extract_country reference_str2dn empty_directory
       (DnStr "cn=first+c=be,cn=second,c=fr") = Ok (Some "fr").
Proof.
  exact (extract_first_match reference_str2dn empty_directory
           (DnStr "cn=first+c=be,cn=second,c=fr") _ eq_refl
           rdns_not_empty_twice).
Defined.

Lemma mail_is_present (k : string) :
  is_Some (({["mail" := ["john@example.com"]]} : entry) !! k) ->
  is_Some (jdoe_entry boss_dn !! k).
Proof.
  intros [v Hv]. apply lookup_singleton_Some in Hv as [<- _].
  eexists. reflexivity.
Qed.

Lemma update_user_modifies_witness :
  let fields : entry := {["mail" := ["john@example.com"]]} in
  let modify := fun old new : entry =>
    [(MOD_DELETE, "mail", None); (MOD_ADD, "mail", new !! "mail")] in
  let target := "cn=jdoe,c=fr,dc=example,dc=com" in
  let attrs := Some ["objectClass"; "employeeType"; "cn"; "givenName"; "sn";
                     "manager"; "mail"; "ou"; "uid"] in
  let h1 := [] ++ [Search (_base update_directory) SCOPE_SUBTREE
                     "(cn=cn=jdoe,c=fr,dc=example,dc=com)" attrs] in
  exists old : entry,
    (forall k, old !! k = match fields !! k with
                          | Some _ => jdoe_entry boss_dn !! k
                          | None => None
                          end)
    /\ update_user modify update_directory "jdoe" "fr" fields []
       = (answer_modify (_conn update_directory) h1 target
            (modify old fields),
          h1 ++ [Modify target (modify old fields)]).
Proof.
  exact (update_user_modifies update_directory
           (fun old new : entry =>
              [(MOD_DELETE, "mail", None); (MOD_ADD, "mail", new !! "mail")])
           "jdoe" "fr" "(cn=cn=jdoe,c=fr,dc=example,dc=com)" jdoe_dn
           {["mail" := ["john@example.com"]]} (jdoe_entry boss_dn) [] []
           eq_refl eq_refl mail_is_present).
Defined.

Lemma update_user_missing_field_witness :
  let fields : entry := {["telephoneNumber" := ["123"]]} in
  let attrs := Some ["objectClass"; "employeeType"; "cn"; "givenName"; "sn";
                     "manager"; "mail"; "ou"; "uid"] in
  exists k',
    is_Some (fields !! k') /\ jdoe_entry boss_dn !! k' = None
    /\ update_user (fun _ _ => []) update_directory "jdoe" "fr" fields []
       = (Raise (KeyError k'),
          [] ++ [Search (_base update_directory) SCOPE_SUBTREE
                   "(cn=cn=jdoe,c=fr,dc=example,dc=com)" attrs]).
Proof.
  exact (update_user_missing_field update_directory (fun _ _ => [])
           "jdoe" "fr" "(cn=cn=jdoe,c=fr,dc=example,dc=com)" jdoe_dn
           "telephoneNumber" {["telephoneNumber" := ["123"]]}
           (jdoe_entry boss_dn) [] []
           eq_refl eq_refl ltac:(eexists; reflexivity) eq_refl).
Defined.

(** *** The shape of a credential *)

Lemma length_be_bytes (n : nat) (x : N) : length (Sha1.be_bytes n x) = n.
Proof. induction n as [|n IH]; simpl; [reflexivity | now rewrite IH]. Qed.

Lemma length_string_of_list_ascii (l : list ascii) :
  String.length (string_of_list_ascii l) = length l.
Proof. induction l as [|c l IH]; simpl; [reflexivity | now rewrite IH]. Qed.

Lemma digest_length (h : Sha1.hash) : String.length (Sha1.digest h) = 20.
Proof.
  unfold Sha1.digest, Sha1.string_of, Sha1.sha1_bytes.
  rewrite length_string_of_list_ascii, length_map.
  destruct (Sha1.blocks _ _ _) as [[[[a b] c] d] e].
  rewrite !length_app, !length_be_bytes. reflexivity.
Qed.

Lemma get_In (s : string) (i : nat) (c : ascii) :
  String.get i s = Some c -> In c (list_ascii_of_string s).
Proof.
  revert i. induction s as [|d s IH]; intros i H; simpl in *; [discriminate|].
  destruct i as [|i]; [inversion H; now left | right; eauto].
Qed.

Lemma enc_char_in_alphabet (n : N) : (n < 64)%N -> in_alphabet (enc_char n).
Proof.
  intros H. unfold enc_char, in_alphabet.
  destruct (String.get (N.to_nat n) alphabet) as [c|] eqn:E.
  - eapply get_In, E.
  - exfalso. assert (Hk : exists k, k < 64 /\ n = N.of_nat k).
    { exists (N.to_nat n). split; [lia | now rewrite N2Nat.id]. }
    destruct Hk as (k & Hk & ->). rewrite Nat2N.id in E.
    do 64 (destruct k as [|k]; [discriminate E|]). lia.
Qed.

Lemma encode_groups (s : string) :
  String.length s mod 3 = 0 ->
  String.length (urlsafe_b64encode s) = 4 * (String.length s / 3)
  /\ Forall in_alphabet (list_ascii_of_string (urlsafe_b64encode s)).
Proof.
  remember (String.length s) as n eqn:Hn. revert s Hn.
  induction n as [n IH] using lt_wf_ind. intros s Hn Hmod.
  destruct s as [|a [|b [|c rest]]]; simpl in Hn; subst n.
  - split; [reflexivity | constructor].
  - discriminate Hmod.
  - discriminate Hmod.
  - pose proof (N_ascii_bounded a) as Ha. pose proof (N_ascii_bounded b) as Hb.
    pose proof (N_ascii_bounded c) as Hc.
    destruct (sextets_bound (N_of_ascii a) (N_of_ascii b) (N_of_ascii c))
      as (Hp & Hq & Hr & Ht); [lia..|].
    destruct (IH (String.length rest) ltac:(lia) rest eq_refl) as [Hl Hf].
    { replace (S (S (S (String.length rest)))) with (String.length rest + 1 * 3) in Hmod by lia.
      now rewrite Nat.Div0.mod_add in Hmod. }
    cbn [urlsafe_b64encode sextets String.length list_ascii_of_string].
    split.
    + rewrite Hl.
      replace (S (S (S (String.length rest)))) with (String.length rest + 1 * 3) by lia.
      rewrite Nat.div_add by lia. lia.
    + do 4 (constructor; [apply enc_char_in_alphabet; assumption|]).
      exact Hf.
Qed.

Lemma check_ssha_hashPassword (password salt : string) :
  String.length salt = 4 ->
  check_ssha password (hashPassword salt password) = true.
Proof.
  intros Hsalt. unfold check_ssha, hashPassword.
  rewrite strip_scheme_tag.
  cbn [mbind option_bind]. rewrite b64_roundtrip.
  rewrite (split_salt_append _ _ Hsalt).
  apply bool_decide_eq_true. reflexivity.
Qed.

Lemma credential_body (password salt : string) :
  String.length salt = 4 ->
  exists body,
    hashPassword salt password = "{SSHA}" +:+ body
    /\ String.length body = 32
    /\ Forall in_alphabet (list_ascii_of_string body).
Proof.
  intros Hsalt. eexists. split; [reflexivity|].
  assert (Hlen : String.length
            (Sha1.digest (Sha1.update (Sha1.sha1 password) salt) +:+ salt) = 24).
  { rewrite PyFacts.length_append, digest_length, Hsalt. reflexivity. }
  destruct (encode_groups _ ltac:(rewrite Hlen; reflexivity)) as [Hl Hf].
  rewrite Hlen in Hl. change (4 * (24 / 3)) with 32 in Hl.
  split; [exact Hl | exact Hf].
Qed.

Lemma credential_length (password salt : string) :
  String.length salt = 4 ->
  String.length (hashPassword salt password) = 38.
Proof.
  intros Hsalt. destruct (credential_body password salt Hsalt) as (b & -> & Hl & _).
  rewrite PyFacts.length_append, Hl. reflexivity.
Qed.

(** X10.  For a salt of four bytes the credential of [hashPassword] has
    38 characters whatever the password: the tag [{SSHA}] and 32 characters
    of the URL-safe alphabet, with no padding character. *)
Theorem hashPassword_shape (password salt : string) :
  String.length salt = 4 ->
  exists body,
    hashPassword salt password = "{SSHA}" +:+ body
    /\ String.length body = 32
    /\ Forall in_alphabet (list_ascii_of_string body)
    /\ String.length (hashPassword salt password) = 38.
Proof.
  intros Hsalt.
  destruct (credential_body password salt Hsalt) as (body & Hb & Hl & Hf).
  exists body. split; [exact Hb|]. split; [exact Hl|]. split; [exact Hf|].
  exact (credential_length password salt Hsalt).
Qed.

(** X11.  The salt can be read back from a credential: two credentials
    made with salts of four bytes are equal only if the salts are equal and
    the digests of password and salt are equal. *)
Theorem hashPassword_embeds_salt (password1 password2 salt1 salt2 : string) :
  String.length salt1 = 4 -> String.length salt2 = 4 ->
  hashPassword salt1 password1 = hashPassword salt2 password2 ->
  salt1 = salt2
  /\ Sha1.digest (Sha1.sha1 (password1 +:+ salt1))
     = Sha1.digest (Sha1.sha1 (password2 +:+ salt2)).
Proof.
  intros H1 H2 Heq.
  apply (f_equal (fun c => strip_scheme c ≫= urlsafe_b64decode)) in Heq.
  unfold hashPassword in Heq. rewrite !strip_scheme_tag in Heq.
  cbn [mbind option_bind] in Heq. rewrite !b64_roundtrip in Heq.
  inversion Heq as [Hblob].
  apply (f_equal split_salt) in Hblob.
  rewrite (split_salt_append _ _ H1), (split_salt_append _ _ H2) in Hblob.
  inversion Hblob as [[Hd Hs]]. split; [reflexivity|]. subst salt2. exact Hd.
Qed.

(** *** randomstring *)

Lemma get_lt (s : string) (i : nat) :
  i < String.length s -> exists c, String.get i s = Some c.
Proof.
  revert i. induction s as [|d s IH]; intros i H; simpl in *; [lia|].
  destruct i as [|i]; [eauto | apply IH; lia].
Qed.

Lemma mapM_Forall {A B} (f : A -> Res B) (P : B -> Prop) (l : list A) :
  (forall x, exists y, f x = Ok y /\ P y) ->
  exists ys, mapM f l = Ok ys /\ length ys = length l /\ Forall P ys.
Proof.
  intros Hf. induction l as [|x l (ys & Hm & Hl & HP)]; simpl.
  - exists []. repeat split. constructor.
  - destruct (Hf x) as (y & Hy & Py). rewrite Hy, Hm. simpl.
    exists (y :: ys). split; [reflexivity|]. split; [simpl; now rewrite Hl|].
    now constructor.
Qed.

Lemma randomstring_Ok (rnd : nat -> nat) (n : nat) :
  exists s,
    randomstring rnd n = Ok s
    /\ String.length s = n
    /\ Forall password_char (list_ascii_of_string s).
Proof.
  unfold randomstring.
  destruct (mapM_Forall (fun i => choice (letters +:+ digit_chars) (rnd i))
              password_char (seq 0 n)) as (data & Hm & Hl & HP).
  { intros i. unfold choice.
    destruct (get_lt (letters +:+ digit_chars)
                (rnd i mod String.length (letters +:+ digit_chars)))
      as [c Hc].
    { apply Nat.mod_upper_bound. discriminate. }
    rewrite Hc. exists c. split; [reflexivity|]. eapply get_In, Hc. }
  rewrite Hm. simpl. eexists. split; [reflexivity|].
  rewrite length_string_of_list_ascii, Hl, length_seq.
  split; [reflexivity|]. now rewrite list_ascii_of_string_of_list_ascii.
Qed.

(** X12.  [randomstring] never fails; its result has the requested length
    and consists of letters and digits only. *)
Theorem randomstring_alphabet (rnd : nat -> nat) (n : nat) :
  exists s,
    randomstring rnd n = Ok s
    /\ String.length s = n
    /\ Forall password_char (list_ascii_of_string s).
Proof. apply randomstring_Ok. Qed.

Lemma hashPassword_shape_witness :
  String.length "abcd" = 4
  /\ exists body,
       hashPassword "abcd" "secret" = "{SSHA}" +:+ body
       /\ String.length body = 32
       /\ Forall in_alphabet (list_ascii_of_string body)
       /\ String.length (hashPassword "abcd" "secret") = 38.
Proof.
  split; [reflexivity | exact (hashPassword_shape "secret" "abcd" eq_refl)].
Defined.

Lemma hashPassword_embeds_salt_witness :
  hashPassword "abcd" "secret" = hashPassword "abcd" "secret"
  /\ "abcd" = "abcd"
  /\ Sha1.digest (Sha1.sha1 ("secret" +:+ "abcd"))
     = Sha1.digest (Sha1.sha1 ("secret" +:+ "abcd")).
Proof.
  split; [reflexivity|].
  exact (hashPassword_embeds_salt "secret" "secret" "abcd" "abcd"
           eq_refl eq_refl eq_refl).
Defined.

Example hashPassword_salts_differ :
  hashPassword "abcd" "secret" <> hashPassword "abce" "secret".
Proof. vm_compute. discriminate. Qed.

(** *** add_user *)

Section AddUser.

Variable addModlist : entry -> addlist.
Variable answer_add : list add_request -> string -> addlist -> Res unit.
Variable self : LdapWrapper.
Variable rnd : nat -> nat.
Variable salt : string.

Lemma add_user_run (login manager country firstname lastname mail : string)
    (unit uid : option string) (password : string) (sent : list add_request) :
  randomstring rnd 8 = Ok password ->
  let target := "cn=" +:+ login +:+ ",c=" +:+ country +:+ "," +:+ _base self in
  exists attrs : entry,
    add_user addModlist answer_add self rnd salt
      login manager country firstname lastname mail unit uid sent
    = (match answer_add sent target (addModlist attrs) with
       | Ok _ => Ok password
       | Raise x => Raise x
       end,
       sent ++ [{| add_dn := target; add_ldif := addModlist attrs |}])
    /\ attrs !! "userPassword" = Some [hashPassword salt password]
    /\ attrs !! "cn" = Some [login]
    /\ attrs !! "givenName" = Some [firstname]
    /\ attrs !! "sn" = Some [lastname]
    /\ attrs !! "mail" = Some [mail]
    /\ attrs !! "manager" = Some [manager]
    /\ attrs !! "objectClass" = Some ["inetOrgPerson"; "top"]
    /\ attrs !! "employeeType" = Some ["Employee"]
    /\ attrs !! "uid" = (if truthy uid then Some [str_of uid] else None)
    /\ attrs !! "ou"
       = Some [if truthy unit then str_of unit else "development"].
Proof.
  intros Hpw target. unfold add_user.
  rewrite (update_user_dn self login country). fold target.
  munfold. rewrite Hpw. unfold add_s.
  match goal with |- context [addModlist ?a] => exists a end. split.
  - destruct (answer_add sent target _) as [[]|x]; reflexivity.
  - destruct (truthy uid); repeat split; simplify_map_eq; reflexivity.
Qed.

(** X13.  With a salt of four bytes, [add_user] sends one add request to
    the DN built from login, country and base DN.  The password it returns
    has eight characters and verifies against the [userPassword] value of
    the request, which is the salted hash and not the password itself; when
    the server refuses the request the error is raised and no password is
    returned. *)
Theorem add_user_password_verifies
    (login manager country firstname lastname mail : string)
    (unit uid : option string) (sent : list add_request) :
  String.length salt = 4 ->
  let target := "cn=" +:+ login +:+ ",c=" +:+ country +:+ "," +:+ _base self in
  exists (password credential : string) (attrs : entry),
    add_user addModlist answer_add self rnd salt
      login manager country firstname lastname mail unit uid sent
    = (match answer_add sent target (addModlist attrs) with
       | Ok _ => Ok password
       | Raise x => Raise x
       end,
       sent ++ [{| add_dn := target; add_ldif := addModlist attrs |}])
    /\ String.length password = 8
    /\ attrs !! "userPassword" = Some [credential]
    /\ check_ssha password credential = true
    /\ credential <> password.
Proof.
  intros Hsalt target.
  destruct (randomstring_Ok rnd 8) as (password & Hpw & Hlen & _).
  destruct (add_user_run login manager country firstname lastname mail
              unit uid password sent Hpw) as (attrs & Hrun & Hcred & _).
  exists password, (hashPassword salt password), attrs.
  split; [exact Hrun|]. split; [exact Hlen|]. split; [exact Hcred|].
  split; [exact (check_ssha_hashPassword password salt Hsalt)|].
  intros Heq. apply (f_equal String.length) in Heq.
  rewrite (credential_length password salt Hsalt), Hlen in Heq. discriminate.
Qed.

(** X14.  The entry [add_user] hands to [addModlist] has the object
    classes [inetOrgPerson] and [top], the employee type [Employee], the
    login as [cn], and first name, last name, mail and manager as given.
    [uid] is present only when a non-empty uid is given, and [ou] is
    [development] when the unit is missing or empty. *)
Theorem add_user_attributes
    (login manager country firstname lastname mail : string)
    (unit uid : option string) (sent : list add_request) :
  exists (password : string) (attrs : entry),
    (add_user addModlist answer_add self rnd salt
       login manager country firstname lastname mail unit uid sent).2
    = sent ++ [{| add_dn := "cn=" +:+ login +:+ ",c=" +:+ country +:+ ","
                            +:+ _base self;
                  add_ldif := addModlist attrs |}]
    /\ attrs !! "cn" = Some [login]
    /\ attrs !! "givenName" = Some [firstname]
    /\ attrs !! "sn" = Some [lastname]
    /\ attrs !! "mail" = Some [mail]
    /\ attrs !! "manager" = Some [manager]
    /\ attrs !! "objectClass" = Some ["inetOrgPerson"; "top"]
    /\ attrs !! "employeeType" = Some ["Employee"]
    /\ attrs !! "uid" = (if truthy uid then Some [str_of uid] else None)
    /\ attrs !! "ou"
       = Some [if truthy unit then str_of unit else "development"].
Proof.
  destruct (randomstring_Ok rnd 8) as (password & Hpw & _).
  destruct (add_user_run login manager country firstname lastname mail
              unit uid password sent Hpw) as (attrs & Hrun & _ & Hrest).
  exists password, attrs. split; [now rewrite Hrun | exact Hrest].
Qed.

End AddUser.

Lemma add_user_password_verifies_witness :
  let addModlist : entry -> addlist := fun attrs => map_to_list attrs in
  let answer_add : list add_request -> string -> addlist -> Res unit :=
    fun _ _ _ => Ok tt in
  let target := "cn=jdoe,c=fr,dc=example,dc=com" in
  String.length "abcd" = 4
  /\ exists (password credential : string) (attrs : entry),
       add_user addModlist answer_add empty_directory (fun i => i) "abcd"
         "jdoe" boss_dn "fr" "John" "Doe" "jdoe@example.com" None None []
       = (match answer_add [] target (addModlist attrs) with
          | Ok _ => Ok password
          | Raise x => Raise x
          end,
          [] ++ [{| add_dn := target; add_ldif := addModlist attrs |}])
       /\ String.length password = 8
       /\ attrs !! "userPassword" = Some [credential]
       /\ check_ssha password credential = true
       /\ credential <> password.
Proof.
  intros addModlist answer_add target. split; [reflexivity|].
  exact (add_user_password_verifies addModlist answer_add empty_directory
           (fun i => i) "abcd"
           "jdoe" boss_dn "fr" "John" "Doe" "jdoe@example.com" None None []
           eq_refl).
Defined.

Example add_user_keeps_password_out :
  add_user (fun attrs : entry => map_to_list attrs) (fun _ _ _ => Ok tt)
    empty_directory (fun i => i) "abcd"
    "jdoe" boss_dn "fr" "John" "Doe" "jdoe@example.com" (Some "") None []
  = (Ok "abcdefgh",
     [{| add_dn := "cn=jdoe,c=fr,dc=example,dc=com";
         add_ldif := map_to_list
           (list_to_map
              [("objectClass", ["inetOrgPerson"; "top"]);
               ("employeeType", ["Employee"]); ("cn", ["jdoe"]);
               ("givenName", ["John"]); ("sn", ["Doe"]);
               ("mail", ["jdoe@example.com"]); ("ou", ["development"]);
               ("userPassword", [hashPassword "abcd" "abcdefgh"]);
               ("manager", [boss_dn])] : entry) |}]).
Proof. vm_compute. reflexivity. Qed.

Example randomstring_counting :
  randomstring (fun i => i) 8 = Ok "abcdefgh"
  /\ randomstring (fun i => 50 + 3 * i) 8 = Ok "Y147adgj".
Proof. split; reflexivity. Qed.

(** *** __init__ and LdapCache *)

Section Init.

Variable initialize : string -> connection.

Lemma init_complete (conf : gmap string string) (h : history) :
  (forall k, k ∈ config_keys -> is_Some (conf !! k)) ->
  exists url base filter mail first last login manager country admin
         system_dn system_pass,
    conf !! "ldap_url" = Some url /\ conf !! "basedn" = Some base
    /\ conf !! "search_filter" = Some filter
    /\ conf !! "mail_attr" = Some mail
    /\ conf !! "firstname_attr" = Some first
    /\ conf !! "lastname_attr" = Some last
    /\ conf !! "login_attr" = Some login
    /\ conf !! "manager_attr" = Some manager
    /\ conf !! "country_attr" = Some country
    /\ conf !! "admin_dn" = Some admin
    /\ conf !! "system_dn" = Some system_dn
    /\ conf !! "system_pass" = Some system_pass
    /\ __init__ initialize conf h
       = (match answer_bind (initialize url) h system_dn system_pass with
          | Ok _ =>
              Ok {| _conn := initialize url; _base := base; _filter := filter;
                    mail_attr := mail; firstname_attr := first;
                    lastname_attr := last; login_attr := login;
                    manager_attr := manager; country_attr := country;
                    admin_dn := admin |}
          | Raise x => Raise x
          end,
          h ++ [Bind system_dn system_pass]).
Proof.
  intros Hall. unfold config_keys in Hall.
  destruct (Hall "ldap_url") as [v1 E1]; [elem_solve|].
  destruct (Hall "basedn") as [v2 E2]; [elem_solve|].
  destruct (Hall "search_filter") as [v3 E3]; [elem_solve|].
  destruct (Hall "mail_attr") as [v4 E4]; [elem_solve|].
  destruct (Hall "firstname_attr") as [v5 E5]; [elem_solve|].
  destruct (Hall "lastname_attr") as [v6 E6]; [elem_solve|].
  destruct (Hall "login_attr") as [v7 E7]; [elem_solve|].
  destruct (Hall "manager_attr") as [v8 E8]; [elem_solve|].
  destruct (Hall "country_attr") as [v9 E9]; [elem_solve|].
  destruct (Hall "admin_dn") as [v10 E10]; [elem_solve|].
  destruct (Hall "system_dn") as [v11 E11]; [elem_solve|].
  destruct (Hall "system_pass") as [v12 E12]; [elem_solve|].
  exists v1, v2, v3, v4, v5, v6, v7, v8, v9, v10, v11, v12.
  repeat (split; [assumption|]).
  unfold __init__, getitem. munfold.
  rewrite E1, E2, E3, E4, E5, E6, E7, E8, E9, E10, E11, E12.
  unfold simple_bind_s.
  destruct (answer_bind _ h v11 v12) as [[]|x]; reflexivity.
Qed.

Lemma init_missing (conf : gmap string string) (h : history) (k : string) :
  first_missing conf config_keys = Some k ->
  __init__ initialize conf h = (Raise (KeyError k), h).
Proof.
  unfold first_missing, config_keys, __init__, getitem. munfold.
  cbn [List.find].
  repeat match goal with
  | |- context [conf !! ?key] =>
      destruct (conf !! key) eqn:?;
      [rewrite (bool_decide_eq_false_2 (Some _ = None)) by discriminate
      |rewrite (bool_decide_eq_true_2 (None = None)) by reflexivity;
       intros H; inversion H; reflexivity]
  end.
  discriminate.
Qed.

Lemma first_missing_Some (conf : gmap string string) (keys : list string)
    (k : string) :
  k ∈ keys -> conf !! k = None ->
  exists k', first_missing conf keys = Some k' /\ k' ∈ keys
             /\ conf !! k' = None.
Proof.
  unfold first_missing. induction keys as [|k0 keys IH]; intros Hin Hk.
  - inversion Hin.
  - simpl. destruct (bool_decide (conf !! k0 = None)) eqn:B.
    + apply bool_decide_eq_true in B. exists k0.
      split; [reflexivity|]. split; [left | exact B].
    + apply bool_decide_eq_false in B.
      apply elem_of_cons in Hin as [->|Hin]; [contradiction|].
      destruct (IH Hin Hk) as (k' & Hf & Hin' & Hn).
      exists k'. split; [exact Hf|]. split; [now right | exact Hn].
Qed.

(** X15.  When the configuration lacks one of the twelve keys [__init__]
    reads, [__init__] raises [KeyError] for the first missing key in
    reading order; no connection is used and no bind is sent. *)
Theorem init_missing_key (conf : gmap string string) (h : history)
    (k : string) :
  k ∈ config_keys -> conf !! k = None ->
  exists k',
    first_missing conf config_keys = Some k'
    /\ conf !! k' = None
    /\ __init__ initialize conf h = (Raise (KeyError k'), h).
Proof.
  intros Hin Hk.
  destruct (first_missing_Some conf config_keys k Hin Hk)
    as (k' & Hf & _ & Hn).
  exists k'. split; [exact Hf|]. split; [exact Hn|].
  apply init_missing, Hf.
Qed.

(** X16.  With a complete configuration [__init__] sends exactly one
    request, a bind with the system DN and the system password, on the
    connection opened for [ldap_url]; when the bind is accepted the wrapper
    carries the base DN, the filter template, the attribute names and the
    admin DN of the configuration, and when it is rejected the error is
    raised and there is no wrapper. *)
Theorem init_binds_system (conf : gmap string string) (h : history) :
  (forall k, k ∈ config_keys -> is_Some (conf !! k)) ->
  exists (w : LdapWrapper) (url system_dn system_pass : string),
    conf !! "ldap_url" = Some url
    /\ conf !! "system_dn" = Some system_dn
    /\ conf !! "system_pass" = Some system_pass
    /\ __init__ initialize conf h
       = (match answer_bind (initialize url) h system_dn system_pass with
          | Ok _ => Ok w
          | Raise x => Raise x
          end,
          h ++ [Bind system_dn system_pass])
    /\ _conn w = initialize url
    /\ conf !! "basedn" = Some (_base w)
    /\ conf !! "search_filter" = Some (_filter w)
    /\ conf !! "mail_attr" = Some (mail_attr w)
    /\ conf !! "firstname_attr" = Some (firstname_attr w)
    /\ conf !! "lastname_attr" = Some (lastname_attr w)
    /\ conf !! "login_attr" = Some (login_attr w)
    /\ conf !! "manager_attr" = Some (manager_attr w)
    /\ conf !! "country_attr" = Some (country_attr w)
    /\ conf !! "admin_dn" = Some (admin_dn w).
Proof.
  intros Hall.
  destruct (init_complete conf h Hall)
    as (url & base & filter & mail & first & last & login & manager & country
        & admin & sdn & spw & E1 & E2 & E3 & E4 & E5 & E6 & E7 & E8 & E9
        & E10 & E11 & E12 & Hrun).
  eexists _, url, sdn, spw.
  split; [exact E1|]. split; [exact E11|]. split; [exact E12|].
  split; [exact Hrun|]. simpl. tauto.
Qed.

(** X17.  [LdapCache.configure] stores the wrapper only when its
    construction returned: after a successful [configure] every
    [LdapCache()] returns the wrapper built from those settings (also when
    another one was configured before); after a failed [configure] the
    cache holds what it held before, so [LdapCache()] on a cache never
    configured still raises [RuntimeError]. *)
Theorem cache_configure (settings : gmap string string) (st : cache) :
  match configure initialize settings st with
  | (Ok _, st') =>
      exists w,
        from_config initialize settings (sent st) = (Ok w, sent st')
        /\ __new__ st' = (Ok w, st')
  | (Raise x, st') =>
      from_config initialize settings (sent st) = (Raise x, sent st')
      /\ _instance st' = _instance st
      /\ (_instance st = None -> __new__ st' = (Raise RuntimeError, st'))
  end.
Proof.
  unfold configure.
  destruct (from_config initialize settings (sent st)) as [[w|x] h'] eqn:E.
  - exists w. split; reflexivity.
  - split; [reflexivity|]. split; [reflexivity|].
    intros Hn. unfold __new__. simpl. now rewrite Hn.
Qed.

End Init.

Lemma sample_conf_complete (k : string) :
  k ∈ config_keys -> is_Some (sample_conf !! k).
Proof.
  intros Hk. unfold config_keys in Hk.
  repeat (apply elem_of_cons in Hk as [->|Hk]);
    [eexists; reflexivity.. | inversion Hk].
Qed.

Lemma init_missing_key_witness :
  exists k',
    first_missing (delete "basedn" sample_conf) config_keys = Some k'
    /\ delete "basedn" sample_conf !! k' = None
    /\ __init__ open_server (delete "basedn" sample_conf) []
       = (Raise (KeyError k'), []).
Proof.
  exact (init_missing_key open_server (delete "basedn" sample_conf) []
           "basedn" ltac:(unfold config_keys; elem_solve) eq_refl).
Defined.

Lemma init_binds_system_witness :
  exists (w : LdapWrapper) (url system_dn system_pass : string),
    sample_conf !! "ldap_url" = Some url
    /\ sample_conf !! "system_dn" = Some system_dn
    /\ sample_conf !! "system_pass" = Some system_pass
    /\ __init__ open_server sample_conf []
       = (match answer_bind (open_server url) [] system_dn system_pass with
          | Ok _ => Ok w
          | Raise x => Raise x
          end,
          [] ++ [Bind system_dn system_pass])
    /\ _conn w = open_server url
    /\ sample_conf !! "basedn" = Some (_base w)
    /\ sample_conf !! "search_filter" = Some (_filter w)
    /\ sample_conf !! "mail_attr" = Some (mail_attr w)
    /\ sample_conf !! "firstname_attr" = Some (firstname_attr w)
    /\ sample_conf !! "lastname_attr" = Some (lastname_attr w)
    /\ sample_conf !! "login_attr" = Some (login_attr w)
    /\ sample_conf !! "manager_attr" = Some (manager_attr w)
    /\ sample_conf !! "country_attr" = Some (country_attr w)
    /\ sample_conf !! "admin_dn" = Some (admin_dn w).
Proof.
  exact (init_binds_system open_server sample_conf [] sample_conf_complete).
Defined.

Example cache_configured_twice :
  let st0 := {| _instance := None; sent := [] |} in
  (__new__ st0).1 = Raise RuntimeError
  /\ (configure open_server (delete "basedn" sample_conf) st0).1
     = Raise (KeyError "basedn")
  /\ (configure open_server sample_conf st0).1 = Ok tt
  /\ sent (configure open_server sample_conf st0).2
     = [Bind "cn=admin,dc=example,dc=com" "s3cret"].
Proof. repeat split; vm_compute; reflexivity. Qed.

End LdapMoreFacts.

(** ** The rest of the view layer *)

Module ViewMoreFacts.
Import Views ViewsMore ViewFacts.

Section Flows.

Variable env : Env.

Lemma redirect_run (self : ViewBase) (c : Crud) (w : World) :
  redirect env self c w
  = (redirected env self c,
     {| session := session w; calls := calls w ++ [redirect_called] |}).
Proof.
  unfold redirect, redirected, record. munfold. simpl.
  destruct (route_url env _ _ _); reflexivity.
Qed.

Lemma render_end_shown (self : ViewBase) (c : Crud) (model : Model)
    (errors : list string) (submitted : bool) (w : World) :
  submitted && bool_decide (errors = []) = false ->
  render_end env self c model errors submitted w
  = shown c model (form_payload self c model errors) (session w)
      (calls w ++ [update_view_called]).
Proof.
  intros Hb. unfold render_end, shown, form_payload. rewrite Hb.
  unfold record, on_session. munfold. simpl.
  destruct (update_view c model _ (session w)) as [[rv|x] s']; reflexivity.
Qed.

(** X18.  With the marker [form.cancelled] the create and the edit flow
    (whatever [get_model] is) only redirect: the model is not loaded,
    nothing is validated or saved and the session is untouched, also when
    [form.submitted] is sent along. *)
Theorem render_cancelled (get_model : M World Model) (self : ViewBase)
    (c : Crud) (w : World) :
  has_key "form.cancelled" (params (request self)) = true ->
  render_with env get_model self c w
  = (redirected env self c,
     {| session := session w; calls := calls w ++ [redirect_called] |}).
Proof.
  intros Hc. unfold render_with. rewrite Hc. apply redirect_run.
Qed.

(** X19.  Without the markers [form.cancelled] and [form.submitted] the
    create flow shows the form: it builds the draft, calls neither
    validation nor [update_model] nor [save_model], and returns the payload
    with an empty error list, the draft and the token, as [update_view]
    leaves it. *)
Theorem create_not_submitted (self : ViewBase) (c : Crud) (model : Model)
    (s s0 : Session) (trace : list call) :
  has_key "form.cancelled" (params (request self)) = false ->
  has_key "form.submitted" (params (request self)) = false ->
  model_new c s = (Ok model, s0) ->
  CreateView_render env self c {| session := s; calls := trace |}
  = shown c model (form_payload self c model []) s0
      (trace ++ [get_model_called; update_view_called]).
Proof.
  intros Hc Hs Hnew. unfold CreateView_render, render_with. rewrite Hc, Hs.
  unfold CreateView_get_model, record, on_session. munfold. simpl.
  rewrite Hnew. rewrite render_end_shown by reflexivity. simpl.
  now rewrite <- app_assoc.
Qed.

(** X20.  When the structural validation of a submitted form leaves
    errors, the create flow shows the form again with those errors and the
    draft as [get_model] built it: the submitted fields are not applied to
    the draft, [model.validate] is not called and nothing is saved. *)
Theorem create_structural_errors (self : ViewBase) (c : Crud) (model : Model)
    (errors : list string) (s s0 s1 : Session) (trace : list call) :
  has_key "form.cancelled" (params (request self)) = false ->
  has_key "form.submitted" (params (request self)) = true ->
  model_new c s = (Ok model, s0) ->
  validate c model [] s0 = (Ok errors, s1) ->
  errors <> [] ->
  CreateView_render env self c {| session := s; calls := trace |}
  = shown c model (form_payload self c model errors) s1
      (trace ++ [get_model_called; validated errors; update_view_called]).
Proof.
  intros Hc Hs Hnew Hval Hne. unfold CreateView_render, render_with.
  rewrite Hc, Hs.
  unfold CreateView_get_model, record, on_session. munfold. simpl.
  rewrite Hnew. simpl. rewrite Hval. simpl.
  rewrite (bool_decide_eq_false_2 _ Hne). simpl.
  rewrite render_end_shown by (now rewrite (bool_decide_eq_false_2 _ Hne)).
  simpl. now rewrite <- !app_assoc.
Qed.

Lemma create_saved_run (self : ViewBase) (c : Crud) (model model' : Model)
    (s s0 s1 s2 : Session) (trace : list call) (outcome : Res unit) :
  has_key "form.cancelled" (params (request self)) = false ->
  has_key "form.submitted" (params (request self)) = true ->
  model_new c s = (Ok model, s0) ->
  validate c model [] s0 = (Ok [], s1) ->
  update_model self c model = Ok model' ->
  model_validate c model' s1 = (outcome, s2) ->
  outcome = Ok tt \/ outcome = Raise (ModelError []) ->
  CreateView_render env self c {| session := s; calls := trace |}
  = (redirected env self c,
     {| session := {| store := store s2; added := added s2 ++ [model'];
                      deleted := deleted s2 |};
        calls := trace ++ [get_model_called; validated []; update_model_called;
                           model_validate_called; save_model_called;
                           redirect_called] |}).
Proof.
  intros Hc Hs Hnew Hval Hupd Hmv Hout. unfold CreateView_render, render_with.
  rewrite Hc, Hs.
  unfold CreateView_get_model, record, on_session. munfold. simpl.
  rewrite Hnew. simpl. rewrite Hval. simpl.
  unfold try_update, record, on_session. rewrite Hupd. simpl. rewrite Hmv.
  destruct Hout as [-> | ->]; simpl;
    unfold render_end, save_model; munfold; simpl;
    rewrite redirect_run; simpl; now rewrite <- !app_assoc.
Qed.

(** X21.  When a submitted form passes both validations, the create flow
    stages the draft with the submitted fields applied, once, at the end of
    the pending additions of the session, and then redirects. *)
Theorem create_valid_saved (self : ViewBase) (c : Crud) (model model' : Model)
    (s s0 s1 s2 : Session) (trace : list call) :
  has_key "form.cancelled" (params (request self)) = false ->
  has_key "form.submitted" (params (request self)) = true ->
  model_new c s = (Ok model, s0) ->
  validate c model [] s0 = (Ok [], s1) ->
  update_model self c model = Ok model' ->
  model_validate c model' s1 = (Ok tt, s2) ->
  CreateView_render env self c {| session := s; calls := trace |}
  = (redirected env self c,
     {| session := {| store := store s2; added := added s2 ++ [model'];
                      deleted := deleted s2 |};
        calls := trace ++ [get_model_called; validated []; update_model_called;
                           model_validate_called; save_model_called;
                           redirect_called] |}).
Proof.
  intros Hc Hs Hnew Hval Hupd Hmv.
  exact (create_saved_run self c model model' s s0 s1 s2 trace (Ok tt)
           Hc Hs Hnew Hval Hupd Hmv (or_introl eq_refl)).
Qed.

(** X22.  A [ModelError] that carries no error leaves the error list
    empty, so the create flow treats the draft as valid: it stages it and
    redirects, exactly as when [model.validate] returns. *)
Theorem create_model_error_without_message (self : ViewBase) (c : Crud)
    (model model' : Model) (s s0 s1 s2 : Session) (trace : list call) :
  has_key "form.cancelled" (params (request self)) = false ->
  has_key "form.submitted" (params (request self)) = true ->
  model_new c s = (Ok model, s0) ->
  validate c model [] s0 = (Ok [], s1) ->
  update_model self c model = Ok model' ->
  model_validate c model' s1 = (Raise (ModelError []), s2) ->
  CreateView_render env self c {| session := s; calls := trace |}
  = (redirected env self c,
     {| session := {| store := store s2; added := added s2 ++ [model'];
                      deleted := deleted s2 |};
        calls := trace ++ [get_model_called; validated []; update_model_called;
                           model_validate_called; save_model_called;
                           redirect_called] |}).
Proof.
  intros Hc Hs Hnew Hval Hupd Hmv.
  exact (create_saved_run self c model model' s s0 s1 s2 trace
           (Raise (ModelError [])) Hc Hs Hnew Hval Hupd Hmv
           (or_intror eq_refl)).
Qed.

(** *** The dispatch *)

(** X23.  With the default error hook, once [render] and
    [update_response] have returned, [__call__] calls [session.flush()]
    exactly once and its outcome is that of the flush: the post-processed
    response when the flush returns, the error of the flush otherwise. *)
Theorem call_commits (v : ViewClass) (w w1 w2 : World)
    (response response' : Response) :
  on_error v = ViewBase_on_error ->
  render v w = (Ok response, w1) ->
  update_response v response w1 = (Ok tt, response', w2) ->
  __call__ env v w
  = (match session_flush env (session w2) with
     | (Ok _, s3) =>
         (Ok response', {| session := s3; calls := calls w2 ++ [flush_called] |})
     | (Raise x, s3) =>
         (Raise x, {| session := s3; calls := calls w2 ++ [flush_called] |})
     end).
Proof.
  intros Herr Hr Hu. unfold __call__. rewrite Hr, Hu.
  unfold flush, record, on_session. munfold. simpl.
  destruct (session_flush env (session w2)) as [[[]|x] s3]; simpl;
    [reflexivity|].
  unfold handle. rewrite Herr. now destruct (is_Exception x).
Qed.

(** X24.  When the error hook returns a false value, [__call__] goes on
    to [return response]: an exception of [render] then surfaces as
    [UnboundLocalError], since [response] was never assigned, and an
    exception of [update_response] is swallowed, the response is returned
    and nothing is flushed. *)
Theorem call_error_suppressed (v : ViewClass) (w : World) :
  (forall x, on_error v x = mret false) ->
  (forall x w1, is_Exception x = true -> render v w = (Raise x, w1) ->
     __call__ env v w = (Raise UnboundLocalError, w1))
  /\ (forall x response response' w0 w1, is_Exception x = true ->
        render v w = (Ok response, w0) ->
        update_response v response w0 = (Raise x, response', w1) ->
        __call__ env v w = (Ok response', w1)).
Proof.
  intros Hq. split.
  - intros x w1 Hx Hr. unfold __call__, handle. rewrite Hr, Hx, Hq.
    reflexivity.
  - intros x response response' w0 w1 Hx Hr Hu.
    unfold __call__, handle. rewrite Hr, Hu, Hx, Hq. reflexivity.
Qed.

(** X25.  An exception that is not an [Exception] (a keyboard interrupt, a
    system exit) passes through [__call__] whatever the error hook is: the
    hook is not consulted and nothing is flushed. *)
Theorem call_non_exception (v : ViewClass) (w w1 : World) (x : exn) :
  is_Exception x = false ->
  render v w = (Raise x, w1) ->
  __call__ env v w = (Raise x, w1).
Proof.
  intros Hx Hr. unfold __call__, handle. now rewrite Hr, Hx.
Qed.

(** *** View.update_response *)

(** X26.  [View.update_response] leaves a redirect and the world alone.
    For a payload it sets the variable [pyvac] to the version, the login
    and the user of the view, with a request count exactly when there is a
    user, and changes no other variable; with no user it runs no query;
    when the count query raises, the payload is left as it was. *)
Theorem update_response_frame (self : ViewBase) (response : Response)
    (w : World) :
  match View_update_response env self response w with
  | (r, response', w') =>
      match response with
      | HTTPFound _ => r = Ok tt /\ response' = response /\ w' = w
      | Payload vars =>
          match r with
          | Raise _ => response' = response
          | Ok _ =>
              exists vars' g,
                response' = Payload vars'
                /\ vars' !! "pyvac" = Some (VGlobal g)
                /\ version g = __version__ env
                /\ global_login g = login self
                /\ global_user g = user self
                /\ (user self = None -> requests_count g = None /\ w' = w)
                /\ (is_Some (user self) -> is_Some (requests_count g))
                /\ forall k, k <> "pyvac" -> vars' !! k = vars !! k
          end
      end
  end.
Proof.
  unfold View_update_response.
  destruct response as [vars|loc]; [|repeat split].
  destruct (user self) as [u|] eqn:Hu.
  - munfold. unfold on_session.
    destruct ((if is_admin u then Request_all_for_admin env
               else if is_super u then Request_by_manager env u
               else Request_by_user env u) (session w)) as [[n|x] s'];
      simpl; [|reflexivity].
    eexists _, _. split; [reflexivity|].
    rewrite lookup_insert_eq. split; [reflexivity|]. simpl.
    do 3 (split; [reflexivity|]).
    split; [discriminate|]. split; [eauto|].
    intros k Hk. now rewrite lookup_insert_ne.
  - munfold. simpl. eexists _, _. split; [reflexivity|].
    rewrite lookup_insert_eq. split; [reflexivity|]. simpl.
    do 3 (split; [reflexivity|]).
    split; [tauto|]. split; [intros [? ?]; discriminate|].
    intros k Hk. now rewrite lookup_insert_ne.
Qed.

(** X27.  For a user who is an administrator the request count is that of
    [Request.all_for_admin], also when the user is a delegated approver as
    well: the administrator test comes first and the other two queries are
    not run. *)
Theorem update_response_admin_first (self : ViewBase) (u : User)
    (vars : gmap string value) (w : World) :
  user self = Some u -> is_admin u = true ->
  View_update_response env self (Payload vars) w
  = match Request_all_for_admin env (session w) with
    | (Ok n, s') =>
        (Ok tt,
         Payload (<["pyvac" := VGlobal {| version := __version__ env;
                                          global_login := login self;
                                          global_user := Some u;
                                          requests_count := Some n |}]> vars),
         {| session := s'; calls := calls w |})
    | (Raise x, s') =>
        (Raise x, Payload vars, {| session := s'; calls := calls w |})
    end.
Proof.
  intros Hu Ha. unfold View_update_response. rewrite Hu, Ha.
  munfold. unfold on_session.
  destruct (Request_all_for_admin env (session w)) as [[n|x] s']; reflexivity.
Qed.

(** *** Identifiers of the request path *)

(** X29.  When the path has no identifier under [matchdict_key]
    ([KeyError]) or the identifier is not an integer ([ValueError]), the
    delete flow raises that error before it reads the store or the form,
    whatever markers the form carries, and the edit flow raises it unless
    the form carries [form.cancelled]. *)
Theorem identifier_errors (self : ViewBase) (c : Crud) (w : World) (x : exn) :
  getitem (matchdict (request self)) (matchdict_key c) ≫= int = Raise x ->
  DeleteView_render env self c w = (Raise x, w)
  /\ (has_key "form.cancelled" (params (request self)) = false ->
      EditView_render env self c w
      = (Raise x, {| session := session w;
                     calls := calls w ++ [get_model_called] |})).
Proof.
  intros Hx. split.
  - unfold DeleteView_render. munfold.
    destruct (getitem _ _) as [key|y]; simpl in Hx.
    + destruct (int key) as [z|y]; [discriminate|]. now inversion Hx.
    + now inversion Hx.
  - intros Hc. unfold EditView_render, render_with. rewrite Hc.
    unfold EditView_get_model, record. munfold. simpl.
    destruct (getitem _ _) as [key|y]; simpl in Hx |- *.
    + destruct (int key) as [z|y]; [discriminate|]. now inversion Hx.
    + now inversion Hx.
Qed.

End Flows.

(** *** update_model *)



Example update_model_empty_value_kept :
  update_model (anonymous [("user.login", ""); ("user.mail", "b@x.org")] ∅)
    (user_view (fun _ => mret tt))
    (<["login" := "bob"]> (<["mail" := "a@x.org"]> ∅))
  = Ok (<["login" := "bob"]> (<["mail" := "b@x.org"]> ∅)).
Proof. vm_compute. reflexivity. Qed.

(** *** Runs of the sample views *)

Lemma render_cancelled_witness :
  let self := anonymous [("form.cancelled", "1"); ("form.submitted", "1")]
                {["user_id" := "42"]} in
  let c := user_view (fun _ => mret tt) in
  render_with plain_env (EditView_get_model self c) self c fresh
  = (redirected plain_env self c,
     {| session := session fresh;
        calls := calls fresh ++ [redirect_called] |}).
Proof.
  exact (render_cancelled plain_env _
           (anonymous [("form.cancelled", "1"); ("form.submitted", "1")]
              {["user_id" := "42"]})
           (user_view (fun _ => mret tt)) fresh eq_refl).
Defined.

Lemma create_not_submitted_witness :
  let self := anonymous [("user.login", "bob")] ∅ in
  let c := user_view taken in
  CreateView_render plain_env self c
    {| session := session fresh; calls := [] |}
  = shown c ∅ (form_payload self c ∅ []) (session fresh)
      ([] ++ [get_model_called; update_view_called]).
Proof.
  exact (create_not_submitted plain_env
           (anonymous [("user.login", "bob")] ∅) (user_view taken) ∅
           (session fresh) (session fresh) [] eq_refl eq_refl eq_refl).
Defined.

Example create_not_submitted_payload :
  CreateView_render plain_env (anonymous [("user.login", "bob")] ∅)
    (user_view taken) fresh
  = (Ok (Payload (<["csrf_token" := VToken "token"]>
                    (<["user" := VModel ∅]> (<["errors" := VErrors []]> ∅)))),
     {| session := session fresh;
        calls := [get_model_called; update_view_called] |}).
Proof. vm_compute. reflexivity. Qed.

Lemma create_structural_errors_witness :
  let self := anonymous [("form.submitted", "1"); ("user.login", "bob")] ∅ in
  CreateView_render plain_env self checked_view
    {| session := session fresh; calls := [] |}
  = shown checked_view ∅
      (form_payload self checked_view ∅ ["passwords do not match"])
      (session fresh)
      ([] ++ [get_model_called; validated ["passwords do not match"];
              update_view_called]).
Proof.
  exact (create_structural_errors plain_env
           (anonymous [("form.submitted", "1"); ("user.login", "bob")] ∅)
           checked_view ∅ ["passwords do not match"]
           (session fresh) (session fresh) (session fresh) []
           eq_refl eq_refl eq_refl eq_refl ltac:(discriminate)).
Defined.

Lemma bob_applied (validation : Model -> M Session unit) :
  update_model
    (anonymous [("form.submitted", "1"); ("user.login", "bob")] ∅)
    (user_view validation) ∅
  = Ok {["login" := "bob"]}.
Proof. vm_compute. reflexivity. Qed.

Lemma create_valid_saved_witness :
  let self := anonymous [("form.submitted", "1"); ("user.login", "bob")] ∅ in
  let c := user_view (fun _ => mret tt) in
  CreateView_render plain_env self c
    {| session := session fresh; calls := [] |}
  = (redirected plain_env self c,
     {| session := {| store := store (session fresh);
                      added := added (session fresh) ++ [{["login" := "bob"]}];
                      deleted := deleted (session fresh) |};
        calls := [] ++ [get_model_called; validated []; update_model_called;
                        model_validate_called; save_model_called;
                        redirect_called] |}).
Proof.
  exact (create_valid_saved plain_env
           (anonymous [("form.submitted", "1"); ("user.login", "bob")] ∅)
           (user_view (fun _ => mret tt)) ∅ {["login" := "bob"]}
           (session fresh) (session fresh) (session fresh) (session fresh) []
           eq_refl eq_refl eq_refl eq_refl (bob_applied _) eq_refl).
Defined.

Lemma create_model_error_without_message_witness :
  let self := anonymous [("form.submitted", "1"); ("user.login", "bob")] ∅ in
  let c := user_view silent in
  CreateView_render plain_env self c
    {| session := session fresh; calls := [] |}
  = (redirected plain_env self c,
     {| session := {| store := store (session fresh);
                      added := added (session fresh) ++ [{["login" := "bob"]}];
                      deleted := deleted (session fresh) |};
        calls := [] ++ [get_model_called; validated []; update_model_called;
                        model_validate_called; save_model_called;
                        redirect_called] |}).
Proof.
  exact (create_model_error_without_message plain_env
           (anonymous [("form.submitted", "1"); ("user.login", "bob")] ∅)
           (user_view silent) ∅ {["login" := "bob"]}
           (session fresh) (session fresh) (session fresh) (session fresh) []
           eq_refl eq_refl eq_refl eq_refl (bob_applied _) eq_refl).
Defined.

Lemma call_commits_witness :
  let self := anonymous [("user.login", "bob")] ∅ in
  let v := CreateView_class plain_env self (user_view taken) in
  let response := Payload (form_payload self (user_view taken) ∅ []) in
  let response' :=
    Payload (<["pyvac" := VGlobal {| version := "1.0";
                                     global_login := "anonymous";
                                     global_user := None;
                                     requests_count := None |}]>
               (form_payload self (user_view taken) ∅ [])) in
  let w1 := {| session := session fresh;
               calls := [get_model_called; update_view_called] |} in
  __call__ plain_env v fresh
  = (match session_flush plain_env (session w1) with
     | (Ok _, s3) =>
         (Ok response', {| session := s3; calls := calls w1 ++ [flush_called] |})
     | (Raise x, s3) =>
         (Raise x, {| session := s3; calls := calls w1 ++ [flush_called] |})
     end).
Proof.
  intros self v response response' w1.
  exact (call_commits plain_env v fresh w1 w1 response response'
           eq_refl eq_refl eq_refl).
Defined.

Lemma call_error_suppressed_witness :
  (forall x w1, is_Exception x = true ->
     render (quiet_class failing) fresh = (Raise x, w1) ->
     __call__ plain_env (quiet_class failing) fresh
     = (Raise UnboundLocalError, w1))
  /\ (forall x response response' w0 w1, is_Exception x = true ->
        render (quiet_class failing) fresh = (Ok response, w0) ->
        update_response (quiet_class failing) response w0
        = (Raise x, response', w1) ->
        __call__ plain_env (quiet_class failing) fresh = (Ok response', w1)).
Proof.
  exact (call_error_suppressed plain_env (quiet_class failing) fresh
           (fun x => eq_refl)).
Defined.

Example call_error_suppressed_run :
  __call__ plain_env (quiet_class failing) fresh
  = (Raise UnboundLocalError, fresh).
Proof. reflexivity. Qed.

Lemma call_non_exception_witness :
  __call__ plain_env (quiet_class interrupted) fresh
  = (Raise (NonException "KeyboardInterrupt"), fresh).
Proof.
  exact (call_non_exception plain_env (quiet_class interrupted) fresh fresh
           (NonException "KeyboardInterrupt") eq_refl eq_refl).
Defined.

Lemma update_response_admin_first_witness :
  View_update_response counting_env (admin_view []) (Payload ∅) fresh
  = match Request_all_for_admin counting_env (session fresh) with
    | (Ok n, s') =>
        (Ok tt,
         Payload (<["pyvac" := VGlobal {| version := __version__ counting_env;
                                          global_login := login (admin_view []);
                                          global_user :=
                                            Some {| is_admin := true;
                                                    is_super := true |};
                                          requests_count := Some n |}]> ∅),
         {| session := s'; calls := calls fresh |})
    | (Raise x, s') =>
        (Raise x, Payload ∅, {| session := s'; calls := calls fresh |})
    end.
Proof.
  exact (update_response_admin_first counting_env (admin_view [])
           {| is_admin := true; is_super := true |} ∅ fresh eq_refl eq_refl).
Defined.

Example update_response_admin_count :
  View_update_response counting_env (admin_view []) (Payload ∅) fresh
  = (Ok tt,
     Payload {["pyvac" := VGlobal {| version := "1.0"; global_login := "root";
                                     global_user :=
                                       Some {| is_admin := true;
                                               is_super := true |};
                                     requests_count := Some 7%Z |}]},
     fresh).
Proof. vm_compute. reflexivity. Qed.

Lemma identifier_errors_witness :
  let self := anonymous [("form.submitted", "1")] {["user_id" := "4x2"]} in
  let c := user_view (fun _ => mret tt) in
  DeleteView_render plain_env self c fresh = (Raise ValueError, fresh)
  /\ (has_key "form.cancelled" (params (request self)) = false ->
      EditView_render plain_env self c fresh
      = (Raise ValueError,
         {| session := session fresh;
            calls := calls fresh ++ [get_model_called] |})).
Proof.
  exact (identifier_errors plain_env
           (anonymous [("form.submitted", "1")] {["user_id" := "4x2"]})
           (user_view (fun _ => mret tt)) fresh ValueError eq_refl).
Defined.

End ViewMoreFacts.
